(** * Closetly: the try-on generation and composition module (src/lib/ai.ts)

    A shallow embedding of the placement policy, the background stripper,
    the procedural model renderer, the remote generation adapter and the
    compositor, with the properties the specification states about them.

    JavaScript numbers are IEEE 754 binary64 values: they are modelled by
    Rocq's primitive floats, so every arithmetic expression of the source is
    evaluated exactly as the engine evaluates it.  DOM attributes that hold
    integers (canvas sizes, bytes of an ImageData buffer) are [Z]. *)

From Stdlib Require Import ZArith List String Ascii Bool Lia.
From Stdlib Require Import Floats Uint63.
Import ListNotations.

Set Warnings "-inexact-float,-register-all".
Local Open Scope string_scope.
Local Open Scope Z_scope.

(** ** JavaScript numbers *)

Module Num.

Definition num := float.

(** An integer attribute read as a number (0 <= z < 2^53). *)
Definition ofZ (z : Z) : num :=
  if z <? 0 then PrimFloat.opp (PrimFloat.of_uint63 (Uint63.of_Z (- z)))
  else PrimFloat.of_uint63 (Uint63.of_Z z).

Definition gt (a b : num) : bool := PrimFloat.ltb b a.
Definition ge (a b : num) : bool := PrimFloat.leb b a.
Definition lt (a b : num) : bool := PrimFloat.ltb a b.
Definition le (a b : num) : bool := PrimFloat.leb a b.

(** [x !== 0], and the truthiness of a number. *)
Definition strict_neq (a b : num) : bool := negb (PrimFloat.eqb a b).
Definition truthy (a : num) : bool :=
  negb (PrimFloat.is_nan a) && negb (PrimFloat.is_zero a).

(** [Math.max] and [Math.min] of two numbers (NaN is contagious, and
    +0 is larger than -0). *)
Definition Math_max (a b : num) : num :=
  if PrimFloat.is_nan a || PrimFloat.is_nan b then PrimFloat.nan
  else if PrimFloat.ltb a b then b
  else if PrimFloat.ltb b a then a
  else match PrimFloat.classify a with NZero => b | _ => a end.

Definition Math_min (a b : num) : num :=
  if PrimFloat.is_nan a || PrimFloat.is_nan b then PrimFloat.nan
  else if PrimFloat.ltb a b then a
  else if PrimFloat.ltb b a then b
  else match PrimFloat.classify a with PZero => b | _ => a end.

(** The exact integer part of a finite number [(-1)^s * m * 2^e], rounded
    toward minus infinity, and the same after adding one half. *)
Definition floorZ (s : bool) (m : positive) (e : Z) : Z :=
  let v := if s then Z.neg m else Z.pos m in
  if 0 <=? e then v * 2 ^ e else v / 2 ^ (- e).

Definition roundZ (s : bool) (m : positive) (e : Z) : Z :=
  let v := if s then Z.neg m else Z.pos m in
  if 0 <=? e then v * 2 ^ e else (2 * v + 2 ^ (- e)) / 2 ^ (- e + 1).

(** [Math.floor]: integral, infinite and NaN arguments are returned as
    they are. *)
Definition Math_floor (x : num) : num :=
  match Prim2SF x with
  | S754_finite s m e => if 0 <=? e then x else ofZ (floorZ s m e)
  | _ => x
  end.

(** [Math.round]: the closest integer, ties toward plus infinity; a
    negative argument that rounds to zero gives -0. *)
Definition Math_round (x : num) : num :=
  match Prim2SF x with
  | S754_finite s m e =>
      if 0 <=? e then x
      else let r := roundZ s m e in
           if (r =? 0) && s then PrimFloat.neg_zero else ofZ r
  | _ => x
  end.

(** The conversion applied by a store into a [Uint8ClampedArray]:
    NaN is 0, the value is clamped to 0..255 and rounded to the nearest
    integer, ties to even. *)
Definition to_uint8_clamp (x : num) : Z :=
  match Prim2SF x with
  | S754_nan => 0
  | S754_zero _ => 0
  | S754_infinity s => if s then 0 else 255
  | S754_finite s m e =>
      if s then 0
      else if 0 <=? e then Z.min 255 (Z.pos m * 2 ^ e)
      else
        let d := 2 ^ (- e) in
        let f := Z.pos m / d in
        let twice := 2 * (Z.pos m mod d) in
        let r := if twice <? d then f
                 else if d <? twice then f + 1
                 else if Z.even f then f else f + 1 in
        Z.min 255 r
  end.

(** The conversion of a number stored into an [unsigned long] attribute
    (a canvas size): truncation, modulo 2^32; NaN and infinities give 0. *)
Definition to_unsigned_long (x : num) : Z :=
  match Prim2SF x with
  | S754_finite s m e =>
      let v := if 0 <=? e then Z.pos m * 2 ^ e else Z.pos m / 2 ^ (- e) in
      (if s then - v else v) mod 2 ^ 32
  | _ => 0
  end.

(** A number stored into the [width] or [height] of a canvas: converted to
    an [unsigned long], and replaced by the default of the attribute (300
    for the width, 150 for the height) when it exceeds 2^31 - 1. *)
Definition canvas_dimension (default : Z) (x : num) : Z :=
  let v := to_unsigned_long x in
  if v <=? 2147483647 then v else default.

End Num.

Import Num.

(** ** Placement policy *)

(** [PlacementBox]: fractions of the canvas, and an optional rotation. *)
Record PlacementBox := mkBox {
  x : num;
  y : num;
  width : num;
  height : num;
  rotationDeg : option num
}.

Local Open Scope float_scope.

Definition getDefaultBox (garmentType : string) : PlacementBox :=
  if String.eqb garmentType "dress" then
    mkBox 0.225 0.08 0.55 0.82 (Some 0)
  else if String.eqb garmentType "tshirt" || String.eqb garmentType "top" then
    mkBox 0.25 0.18 0.5 0.4 (Some 0)
  else if String.eqb garmentType "pants" then
    mkBox 0.25 0.35 0.5 0.45 (Some 0)
  else if String.eqb garmentType "shorts" then
    mkBox 0.25 0.35 0.5 0.25 (Some 0)
  else if String.eqb garmentType "footwear" then
    mkBox 0.35 0.78 0.3 0.18 (Some 0)
  else if String.eqb garmentType "accessory" then
    mkBox 0.4 0.1 0.2 0.2 (Some 0)
  else
    mkBox 0.25 0.2 0.5 0.5 (Some 0).

Definition isValidBox (box : PlacementBox) : bool :=
  let within :=
    ge (x box) 0 && le (x box) 1 &&
    ge (y box) 0 && le (y box) 1 &&
    gt (width box) 0 && le (width box) 1 &&
    gt (height box) 0 && le (height box) 1 in
  let area := width box * height box in
  within && ge area 0.02.

(** The inline [switch] of [composeTryOnImage] (the same table, written a
    second time in the source). *)
Definition composeBox (garmentType : string) : PlacementBox :=
  if String.eqb garmentType "dress" then
    mkBox 0.225 0.08 0.55 0.82 (Some 0)
  else if String.eqb garmentType "tshirt" || String.eqb garmentType "top" then
    mkBox 0.25 0.18 0.5 0.4 (Some 0)
  else if String.eqb garmentType "pants" then
    mkBox 0.25 0.35 0.5 0.45 (Some 0)
  else if String.eqb garmentType "shorts" then
    mkBox 0.25 0.35 0.5 0.25 (Some 0)
  else if String.eqb garmentType "footwear" then
    mkBox 0.35 0.78 0.3 0.18 (Some 0)
  else if String.eqb garmentType "accessory" then
    mkBox 0.4 0.1 0.2 0.2 (Some 0)
  else
    mkBox 0.25 0.2 0.5 0.5 (Some 0).


Local Close Scope float_scope.

(** ** The platform: files, the generative service, JSON, images

    What the module does not implement itself is a field of [Platform]:
    the configured credential, [btoa], the remote [generateContent] call,
    [JSON.parse], whether a 2D context can be obtained, image decoding and
    the rasterisation of an image into an [ImageData] buffer. *)

Inductive Outcome (A : Type) : Type :=
| Returned (a : A)
| Threw (message : string).
Arguments Returned {A} a.
Arguments Threw {A} message.

(** [File]: its [type] and the bytes [arrayBuffer()] resolves to ([None]
    when it rejects). *)
Record File := mkFile {
  file_type : string;
  file_bytes : option (list Z)
}.

Record InlineData := mkInline {
  mimeType : string;
  data : string
}.

Record Part := mkPart {
  text : option string;
  inlineData : option InlineData
}.

Inductive Gender := male | female | any.

(** The prompts are long template strings; a prompt is represented by the
    template and the values substituted in it. *)
Inductive Prompt :=
| PlacementPrompt (garmentType : string)
| TryOnPrompt (count : nat) (types : list string) (gender : Gender)
| SimplePrompt
| StylingPrompt (types : list string).

Inductive RequestPart :=
| ReqPrompt (p : Prompt)
| ReqText (s : string)
| ReqLabel (i : nat) (type : option string)
| ReqInline (d : InlineData).

Record GenRequest := mkRequest {
  req_key : string;
  req_model : string;
  req_parts : list RequestPart;
  req_image_output : bool
}.

(** A response: the parts of its first candidate (if any), and what
    [response.text()] gives ([None] when it throws). *)
Record GenResponse := mkResponse {
  candidate_parts : option (list Part);
  response_text : option string
}.

(** The value [JSON.parse] returns. *)
Inductive JsValue :=
| JNull
| JBool (b : bool)
| JNum (n : num)
| JStr (s : string)
| JArr (items : list JsValue)
| JObj (fields : list (string * JsValue)).

(** [HTMLImageElement]: where its pixels come from, and its size. *)
Inductive CanvasCmd :=
| SetFillStyle (style : string)
| SetFillGradient (x0 y0 r0 x1 y1 r1 : num) (stops : list (num * string))
| FillRect (x y w h : num)
| BeginPath
| Ellipse (cx cy rx ry rotation startAngle endAngle : num)
| MoveTo (x y : num)
| LineTo (x y : num)
| ClosePath
| Fill
| SetShadow (color : string) (blur offsetX offsetY : num).

Inductive ImageSource :=
| FromUrl (url : string)
| FromCanvas (cmds : list CanvasCmd).

Record HTMLImageElement := mkImage {
  img_src : ImageSource;
  img_width : Z;
  img_height : Z
}.

Record Platform := mkPlatform {
  (** [import.meta.env.VITE_GOOGLE_AI_API_KEY] *)
  env_api_key : option string;
  btoa : list Z -> string;
  generateContent : GenRequest -> Outcome GenResponse;
  JSON_parse : string -> option JsValue;
  (** [getContext("2d")] on the model canvas, on the composition canvas,
      and on the offscreen canvas of the k-th garment draw. *)
  model_context : bool;
  compose_context : bool;
  offscreen_context : nat -> bool;
  (** decoding of an image URL: its natural size, or an error event *)
  decode : string -> option (Z * Z);
  (** the RGBA bytes read back after drawing an image scaled to w x h *)
  raster : HTMLImageElement -> Z -> Z -> list Z
}.

(** ** Effects: a trace of what the module asks of the platform, and
    exceptions *)

Inductive Event :=
| EvGenerate (r : GenRequest)
| EvRenderModel (g : Gender)
| EvLoadImage (url : string).

Definition M (A : Type) : Type := list Event -> Outcome A * list Event.

Definition ret {A} (a : A) : M A := fun t => (Returned a, t).
Definition throw {A} (message : string) : M A := fun t => (Threw message, t).
Definition emit (e : Event) : M unit := fun t => (Returned tt, (t ++ [e])%list).
Definition bind {A B} (m : M A) (k : A -> M B) : M B :=
  fun t => match m t with
           | (Returned a, t') => k a t'
           | (Threw e, t') => (Threw e, t')
           end.
Definition try_catch {A} (m : M A) (handler : string -> M A) : M A :=
  fun t => match m t with
           | (Returned a, t') => (Returned a, t')
           | (Threw e, t') => handler e t'
           end.
Definition lift {A} (o : Outcome A) : M A := fun t => (o, t).

Notation "x <- m ;; k" := (bind m (fun x => k))
  (at level 61, m at next level, right associativity).
Notation "m ;;; k" := (bind m (fun _ => k))
  (at level 61, right associativity).

Fixpoint mapM {A B} (f : A -> M B) (l : list A) : M (list B) :=
  match l with
  | [] => ret []
  | a :: l' => b <- f a ;; bs <- mapM f l' ;; ret (b :: bs)
  end.

(** Truthiness of an optional string (undefined and the empty string are
    falsy). *)
Definition truthy_string (s : option string) : option string :=
  match s with
  | Some EmptyString => None
  | other => other
  end.

(** ** Placement estimated by the remote model *)

Definition is_letter (c : ascii) : bool :=
  let n := nat_of_ascii c in
  (((65 <=? n) && (n <=? 90)) || ((97 <=? n) && (n <=? 122)))%nat.

Fixpoint skip_letters (s : string) : string :=
  match s with
  | String c s' => if is_letter c then skip_letters s' else s
  | EmptyString => s
  end.

(** The lazy group [([\s\S]*?)] followed by the closing fence. *)
Fixpoint until_fence (s : string) : option string :=
  if String.prefix "```" s then Some EmptyString
  else match s with
       | EmptyString => None
       | String c s' => option_map (String c) (until_fence s')
       end.

Definition match_fence_here (s : string) : option string :=
  match s with
  | String "`" (String "`" (String "`" r)) =>
      match skip_letters r with
      | String "010" body => until_fence body
      | _ => None
      end
  | _ => None
  end.

Fixpoint match_fence (s : string) : option string :=
  match match_fence_here s with
  | Some body => Some body
  | None => match s with
            | EmptyString => None
            | String _ s' => match_fence s'
            end
  end.

Definition stripCodeFences (text : string) : string :=
  match match_fence text with
  | Some body => body
  | None => text
  end.

Definition clamp01 (v : option JsValue) : num :=
  match v with
  | Some (JNum n) =>
      if PrimFloat.is_nan n then 0%float
      else Math_max 0%float (Math_min 1%float n)
  | _ => 0%float
  end.

(** Reading a property of a parsed value: a [TypeError] on [null], the own
    property of an object, [undefined] otherwise. *)
Fixpoint assoc (k : string) (fields : list (string * JsValue)) : option JsValue :=
  match fields with
  | [] => None
  | (k', v) :: rest => if String.eqb k k' then Some v else assoc k rest
  end.

Definition get_prop (json : JsValue) (k : string) : Outcome (option JsValue) :=
  match json with
  | JNull => Threw "TypeError: Cannot read properties of null"
  | JObj fields => Returned (assoc k fields)
  | _ => Returned None
  end.

Definition fileToBase64 (P : Platform) (file : File) : M InlineData :=
  let mime := match file_type file with
              | EmptyString => "image/png"
              | t => t
              end in
  match file_bytes file with
  | None => throw "arrayBuffer rejected"
  | Some bytes => ret (mkInline mime (btoa P bytes))
  end.

Definition generate (P : Platform) (r : GenRequest) : M GenResponse :=
  emit (EvGenerate r) ;;; lift (generateContent P r).

(** The object literal [{ x: clamp01(json.x), ..., rotationDeg: ... }]. *)
Definition clampedBox (json : JsValue) : Outcome PlacementBox :=
  match get_prop json "x", get_prop json "y", get_prop json "width",
        get_prop json "height", get_prop json "rotationDeg" with
  | Returned jx, Returned jy, Returned jw, Returned jh, Returned jr =>
      Returned (mkBox (clamp01 jx) (clamp01 jy) (clamp01 jw) (clamp01 jh)
                      (Some match jr with
                            | Some (JNum n) => n
                            | _ => 0%float
                            end))
  | Threw e, _, _, _, _ => Threw e
  | _, Threw e, _, _, _ => Threw e
  | _, _, Threw e, _, _ => Threw e
  | _, _, _, Threw e, _ => Threw e
  | _, _, _, _, Threw e => Threw e
  end.

(** The [try] block of [estimateGarmentPlacement]: parse, clamp, validate. *)
Definition parsePlacement (P : Platform) (garmentType txt : string) : M PlacementBox :=
  json <- match JSON_parse P (stripCodeFences txt) with
          | Some v => ret v
          | None => throw "SyntaxError"
          end ;;
  box <- lift (clampedBox json) ;;
  if negb (isValidBox box) then ret (getDefaultBox garmentType) else ret box.

Definition placement_request (key garmentType : string) (garment : InlineData)
    : GenRequest :=
  mkRequest key "gemini-1.5-flash"
    [ReqPrompt (PlacementPrompt garmentType);
     ReqText ("Garment type: " ++ garmentType);
     ReqInline garment] false.

Definition estimateGarmentPlacement (P : Platform)
    (garmentFile : File) (garmentType : string) (apiKey : option string)
    : M PlacementBox :=
  let key := match truthy_string apiKey with
             | Some k => Some k
             | None => env_api_key P
             end in
  match truthy_string key with
  | None => throw "Missing Google AI API key. Set VITE_GOOGLE_AI_API_KEY."
  | Some key =>
      garment <- fileToBase64 P garmentFile ;;
      result <- generate P (placement_request key garmentType garment) ;;
      txt <- match response_text result with
             | Some s => ret s
             | None => throw "response.text() failed"
             end ;;
      try_catch (parsePlacement P garmentType txt)
                (fun _ => ret (getDefaultBox garmentType))
  end.


(** ** Background stripper *)

Local Open Scope float_scope.

(** One iteration of the pixel loop of [drawGarmentWithBgRemoval]: the new
    value of [data[i + 3]]. *)
Definition strip_alpha (r g b a : Z) : Z :=
  let r' := ofZ r in
  let g' := ofZ g in
  let b' := ofZ b in
  let brightness := 0.299 * r' + 0.587 * g' + 0.114 * b' in
  let maxRGB := Math_max (Math_max r' g') b' in
  let minRGB := Math_min (Math_min r' g') b' in
  let contrast := maxRGB - minRGB in
  let saturation := contrast / (maxRGB + 0.001) in
  if gt brightness 230 && lt contrast 25 then 0%Z
  else if gt brightness 210 && lt contrast 20 && lt saturation 0.15 then 0%Z
  else if gt r' 245 && gt g' 245 && gt b' 245 then 0%Z
  else to_uint8_clamp (Math_min 255 (Math_round (ofZ a * 0.99))).

(** The loop [for (i = 0; i < data.length; i += 4)] over the RGBA bytes.
    A buffer read back from a canvas holds whole pixels; were there a
    tail of fewer than four bytes, the store past the end of the typed
    array would be dropped. *)
Fixpoint strip_loop (data : list Z) : list Z :=
  match data with
  | r :: g :: b :: a :: rest => r :: g :: b :: strip_alpha r g b a :: strip_loop rest
  | tail => tail
  end.

Local Close Scope float_scope.

(** ** The destination 2D context *)

Inductive Transform :=
| Translate (dx dy : num)
| Rotate (angle : num).

Inductive Drawable :=
| ImageElement (img : HTMLImageElement)
| OffscreenCanvas (origin : HTMLImageElement) (w h : Z) (pixels : list Z).

Record Shadow := mkShadow {
  shadowColor : string;
  shadowBlur : num;
  shadowOffsetX : num;
  shadowOffsetY : num
}.

(** A [drawImage] call, with the drawing state it was made under. *)
Record DrawCall := mkDraw {
  draw_source : Drawable;
  draw_x : num;
  draw_y : num;
  draw_w : num;
  draw_h : num;
  draw_alpha : num;
  draw_shadow : Shadow;
  draw_transform : list Transform
}.

Record Context2D := mkCtx {
  globalAlpha : num;
  shadow : Shadow;
  transform : list Transform;
  saved : list (num * Shadow * list Transform);
  drawn : list DrawCall
}.

Definition no_shadow : Shadow := mkShadow "transparent" 0%float 0%float 0%float.

(** A context as [getContext("2d")] first returns it. *)
Definition fresh_context : Context2D :=
  mkCtx 1%float (mkShadow "rgba(0, 0, 0, 0)" 0%float 0%float 0%float) [] [] [].

Definition set_globalAlpha (v : num) (ctx : Context2D) : Context2D :=
  mkCtx v (shadow ctx) (transform ctx) (saved ctx) (drawn ctx).

Definition set_shadow (s : Shadow) (ctx : Context2D) : Context2D :=
  mkCtx (globalAlpha ctx) s (transform ctx) (saved ctx) (drawn ctx).

Definition drawImage (src : Drawable) (x y w h : num) (ctx : Context2D) : Context2D :=
  mkCtx (globalAlpha ctx) (shadow ctx) (transform ctx) (saved ctx)
        (drawn ctx ++ [mkDraw src x y w h (globalAlpha ctx) (shadow ctx) (transform ctx)])%list.

Definition save (ctx : Context2D) : Context2D :=
  mkCtx (globalAlpha ctx) (shadow ctx) (transform ctx)
        ((globalAlpha ctx, shadow ctx, transform ctx) :: saved ctx) (drawn ctx).

Definition restore (ctx : Context2D) : Context2D :=
  match saved ctx with
  | [] => ctx
  | (a, s, t) :: rest => mkCtx a s t rest (drawn ctx)
  end.

Definition apply_transform (t : Transform) (ctx : Context2D) : Context2D :=
  mkCtx (globalAlpha ctx) (shadow ctx) (transform ctx ++ [t])%list (saved ctx) (drawn ctx).

(** [drawGarmentWithBgRemoval]; [k] names the offscreen canvas it creates. *)
Definition drawGarmentWithBgRemoval (P : Platform) (k : nat)
    (ctx : Context2D) (img : HTMLImageElement) (x y w h : num) : Context2D :=
  let off_width := canvas_dimension 300 (Math_max 1%float (Math_floor w)) in
  let off_height := canvas_dimension 150 (Math_max 1%float (Math_floor h)) in
  if negb (offscreen_context P k) then
    let ctx := set_globalAlpha 0.95%float ctx in
    drawImage (ImageElement img) x y w h ctx
  else
    let data := strip_loop (raster P img off_width off_height) in
    let ctx := set_shadow (mkShadow "rgba(0, 0, 0, 0.15)" 5%float 2%float 3%float) ctx in
    let ctx := set_globalAlpha 0.98%float ctx in
    let ctx := drawImage (OffscreenCanvas img off_width off_height data) x y w h ctx in
    set_shadow no_shadow ctx.


(** ** Procedural model renderer *)

Module Model.

Local Open Scope float_scope.

Definition canvas_width : Z := 400.
Definition canvas_height : Z := 600.
Definition cw : num := ofZ canvas_width.
Definition ch : num := ofZ canvas_height.
Definition Math_PI : num := 3.141592653589793.
Definition full_ellipse (cx cy rx ry rotation : num) : CanvasCmd :=
  Ellipse cx cy rx ry rotation 0 (2 * Math_PI).

Definition background : list CanvasCmd :=
  [ SetFillGradient (cw / 2) (ch / 3) 0 (cw / 2) (ch / 2) cw
      [(0, "#ffffff"); (0.3, "#f8f9fa"); (0.7, "#e9ecef"); (1, "#dee2e6")]%string;
    FillRect 0 0 cw ch ].

Definition floor_shadow : list CanvasCmd :=
  [ SetFillStyle "rgba(0, 0, 0, 0.05)";
    full_ellipse (cw / 2) (ch - 20) 80 15 0;
    Fill ].

Definition skinTone : string := "#f4a261".
Definition hairColor (gender : Gender) : string :=
  match gender with male => "#1a202c" | _ => "#2d3748" end.

Definition head (gender : Gender) : list CanvasCmd :=
  [ SetFillStyle skinTone; BeginPath;
    match gender with
    | male => full_ellipse (cw / 2) 80 32 38 0
    | female => full_ellipse (cw / 2) 80 30 40 0
    | any => full_ellipse (cw / 2) 80 31 39 0
    end;
    Fill ].

Definition hair (gender : Gender) : list CanvasCmd :=
  [ SetFillStyle (hairColor gender); BeginPath;
    match gender with
    | male => full_ellipse (cw / 2) 70 32 20 0
    | female => full_ellipse (cw / 2) 65 35 28 0
    | any => full_ellipse (cw / 2) 67 33 24 0
    end;
    Fill ].

Definition face : list CanvasCmd :=
  [ SetFillStyle "rgba(0, 0, 0, 0.1)";
    BeginPath; full_ellipse (cw / 2 - 12) 75 3 2 0; Fill;
    BeginPath; full_ellipse (cw / 2 + 12) 75 3 2 0; Fill;
    BeginPath; full_ellipse (cw / 2) 85 2 3 0; Fill;
    BeginPath; full_ellipse (cw / 2) 95 4 2 0; Fill ].

Definition neck : list CanvasCmd :=
  [ SetFillStyle skinTone; FillRect (cw / 2 - 12) 115 24 30 ].

(** The four vertices of the shoulder polygon, in drawing order. *)
Definition shoulder_vertices (gender : Gender) : list (num * num) :=
  match gender with
  | male =>
      [ (cw / 2 - 55, 145); (cw / 2 - 42, 170); (cw / 2 + 42, 170); (cw / 2 + 55, 145) ]
  | female =>
      [ (cw / 2 - 48, 145); (cw / 2 - 38, 170); (cw / 2 + 38, 170); (cw / 2 + 48, 145) ]
  | any =>
      [ (cw / 2 - 50, 145); (cw / 2 - 40, 170); (cw / 2 + 40, 170); (cw / 2 + 50, 145) ]
  end.

Definition torso_vertices (gender : Gender) : list (num * num) :=
  match gender with
  | male =>
      [ (cw / 2 - 42, 170); (cw / 2 - 38, 330); (cw / 2 + 38, 330); (cw / 2 + 42, 170) ]
  | female =>
      [ (cw / 2 - 40, 170); (cw / 2 - 32, 330); (cw / 2 + 32, 330); (cw / 2 + 40, 170) ]
  | any =>
      [ (cw / 2 - 40, 170); (cw / 2 - 35, 330); (cw / 2 + 35, 330); (cw / 2 + 40, 170) ]
  end.

(** [beginPath(); moveTo(v0); lineTo(v1); ...; closePath(); fill()] *)
Definition polygon (vs : list (num * num)) : list CanvasCmd :=
  (BeginPath ::
   match vs with
   | [] => []
   | (x0, y0) :: rest => MoveTo x0 y0 :: map (fun v => LineTo (fst v) (snd v)) rest
   end ++ [ClosePath; Fill])%list.

Definition shoulders (gender : Gender) : list CanvasCmd := polygon (shoulder_vertices gender).
Definition torso (gender : Gender) : list CanvasCmd := polygon (torso_vertices gender).

Definition limbs : list CanvasCmd :=
  [ BeginPath; full_ellipse (cw / 2 - 60) 220 18 100 (-0.15); Fill;
    BeginPath; full_ellipse (cw / 2 + 60) 220 18 100 0.15; Fill;
    BeginPath; full_ellipse (cw / 2 - 60) 320 10 15 (-0.15); Fill;
    BeginPath; full_ellipse (cw / 2 + 60) 320 10 15 0.15; Fill;
    BeginPath; full_ellipse (cw / 2 - 20) 450 20 130 0; Fill;
    BeginPath; full_ellipse (cw / 2 + 20) 450 20 130 0; Fill;
    BeginPath; full_ellipse (cw / 2 - 20) 580 15 10 0; Fill;
    BeginPath; full_ellipse (cw / 2 + 20) 580 15 10 0; Fill ].

Definition commands (gender : Gender) : list CanvasCmd :=
  (background ++ floor_shadow ++
   [SetShadow "transparent" 0 0 0] ++
   head gender ++ hair gender ++ face ++ neck ++
   shoulders gender ++ torso gender ++ limbs ++
   [SetShadow "rgba(0, 0, 0, 0.08)" 6 1 3])%list.

(** Half of the horizontal distance between two vertices. *)
Definition half_width (l r : num * num) : num := (fst r - fst l) / 2.

(** The half-width of the shoulder polygon along its lower edge (the
    two [lineTo] vertices at y = 170, where it meets the torso) and along
    its upper edge (y = 145). *)
Definition shoulder_half_width (gender : Gender) : num :=
  match shoulder_vertices gender with
  | [ _; l; r; _ ] => half_width l r
  | _ => PrimFloat.nan
  end.

Definition shoulder_top_half_width (gender : Gender) : num :=
  match shoulder_vertices gender with
  | [ l; _; _; r ] => half_width l r
  | _ => PrimFloat.nan
  end.

End Model.

Definition createStandardModelImage (P : Platform) (gender : Gender)
    : M HTMLImageElement :=
  if negb (model_context P) then throw "Canvas not supported"
  else
    emit (EvRenderModel gender) ;;;
    ret (mkImage (FromCanvas (Model.commands gender))
                 Model.canvas_width Model.canvas_height).

Definition loadImage (P : Platform) (src : string) : M HTMLImageElement :=
  emit (EvLoadImage src) ;;;
  match decode P src with
  | Some (w, h) => ret (mkImage (FromUrl src) w h)
  | None => throw ("Failed to load image: " ++ String.substring 0 50 src ++ "...")
  end.

(** ** Remote generation adapter *)

Record GarmentInput := mkGarment {
  url : string;
  type : string;
  file : File
}.

Definition image_model : string := "gemini-2.0-flash-preview-image-generation".
Definition text_model : string := "gemini-1.5-flash".

Definition encodeGarments (P : Platform) (garments : list GarmentInput)
    : M (list (InlineData * string)) :=
  mapM (fun g => d <- fileToBase64 P (file g) ;; ret (d, type g)) garments.

(** The parts pushed by the loops [for (i = 0; i < garmentData.length; i++)]:
    a label and the image, for each garment. *)
Fixpoint garment_parts (with_type : bool) (i : nat)
    (garmentData : list (InlineData * string)) : list RequestPart :=
  match garmentData with
  | [] => []
  | (d, t) :: rest =>
      ReqLabel (S i) (if with_type then Some t else None) :: ReqInline d
        :: garment_parts with_type (S i) rest
  end.

Definition is_image_part (p : Part) : bool :=
  match inlineData p with
  | Some d => String.prefix "image/" (mimeType d)
  | None => false
  end.

(** [parts?.find(image part)] and the data URL built from it; [None] when
    there is no such part or its data is empty. *)
Definition image_of_response (r : GenResponse) : option string :=
  match candidate_parts r with
  | None => None
  | Some parts =>
      match find is_image_part parts with
      | Some (mkPart _ (Some d)) =>
          match data d with
          | EmptyString => None
          | _ => Some ("data:" ++ mimeType d ++ ";base64," ++ data d)
          end
      | _ => None
      end
  end.

Definition firstAttempt (P : Platform) (garments : list GarmentInput)
    (apiKey : string) (gender : Gender) : M (option string) :=
  garmentData <- encodeGarments P garments ;;
  result <- generate P
    (mkRequest apiKey image_model
       (ReqPrompt (TryOnPrompt (List.length garmentData) (map type garments) gender)
          :: garment_parts true 0 garmentData) true) ;;
  ret (image_of_response result).

Definition retryAttempt (P : Platform) (garments : list GarmentInput)
    (apiKey : string) : M (option string) :=
  let limitedGarments := firstn 2 garments in
  limitedGarmentData <- encodeGarments P limitedGarments ;;
  simpleResult <- generate P
    (mkRequest apiKey image_model
       (ReqPrompt SimplePrompt :: garment_parts false 0 limitedGarmentData) true) ;;
  ret (image_of_response simpleResult).

Definition stylingAnalysis (P : Platform) (garments : list GarmentInput)
    (apiKey : string) : M unit :=
  garmentData <- encodeGarments P garments ;;
  result <- generate P
    (mkRequest apiKey text_model
       (ReqPrompt (StylingPrompt (map type garments))
          :: garment_parts true 0 garmentData) false) ;;
  match response_text result with
  | Some _ => ret tt
  | None => throw "response.text() failed"
  end.

Definition generateAITryOn (P : Platform) (garments : list GarmentInput)
    (apiKey : string) (gender : Gender) : M (option string) :=
  let garments := if (5 <? List.length garments)%nat then firstn 5 garments else garments in
  generated <- try_catch (firstAttempt P garments apiKey gender)
    (fun _ =>
       if (2 <? List.length garments)%nat then
         try_catch (retryAttempt P garments apiKey) (fun _ => ret None)
       else ret None) ;;
  match generated with
  | Some dataUrl => ret (Some dataUrl)
  | None =>
      try_catch (stylingAnalysis P garments apiKey) (fun _ => ret tt) ;;;
      ret None
  end.

(** ** Compositor *)

Inductive ComposedImage :=
| RemoteImage (dataUrl : string)
| CanvasImage (w h : Z) (layers : list DrawCall).

(** The loading loop: successes are pushed, failures skipped. *)
Fixpoint loadGarments (P : Platform) (garments : list GarmentInput)
    : M (list HTMLImageElement) :=
  match garments with
  | [] => ret []
  | garment :: rest =>
      loaded <- try_catch (img <- loadImage P (url garment) ;; ret [img])
                          (fun _ => ret []) ;;
      more <- loadGarments P rest ;;
      ret (loaded ++ more)%list
  end.

(** The body of the drawing loop for index [i]. *)
Definition drawGarment (P : Platform) (canvas_w canvas_h : Z)
    (garmentImages : list HTMLImageElement) (i : nat) (garment : GarmentInput)
    (ctx : Context2D) : Context2D :=
  if (List.length garmentImages <=? i)%nat then ctx
  else
    match nth_error garmentImages i with
    | None => ctx
    | Some garmentImg =>
        let box := composeBox (type garment) in
        let targetW := (ofZ canvas_w * width box)%float in
        let targetH := (ofZ canvas_h * height box)%float in
        let targetX := (ofZ canvas_w * x box)%float in
        let targetY := (ofZ canvas_h * y box)%float in
        match rotationDeg box with
        | Some deg =>
            if truthy deg && strict_neq deg 0%float then
              let ctx := save ctx in
              let ctx := apply_transform
                           (Translate (targetX + targetW / 2) (targetY + targetH / 2))%float ctx in
              let ctx := apply_transform (Rotate (deg * Model.Math_PI / 180))%float ctx in
              let ctx := drawGarmentWithBgRemoval P i ctx garmentImg
                           (- targetW / 2)%float (- targetH / 2)%float targetW targetH in
              restore ctx
            else drawGarmentWithBgRemoval P i ctx garmentImg targetX targetY targetW targetH
        | None => drawGarmentWithBgRemoval P i ctx garmentImg targetX targetY targetW targetH
        end
    end.

Fixpoint drawGarments (P : Platform) (canvas_w canvas_h : Z)
    (garmentImages : list HTMLImageElement) (i : nat)
    (garments : list GarmentInput) (ctx : Context2D) : Context2D :=
  match garments with
  | [] => ctx
  | garment :: rest =>
      drawGarments P canvas_w canvas_h garmentImages (S i) rest
        (drawGarment P canvas_w canvas_h garmentImages i garment ctx)
  end.

Definition composeTryOnImage (P : Platform) (garments : list GarmentInput)
    (gender : option Gender) : M ComposedImage :=
  let gender := match gender with Some g => g | None => female end in
  aiResult <-
    match truthy_string (env_api_key P) with
    | Some apiKey =>
        if (0 <? List.length garments)%nat then
          try_catch (generateAITryOn P garments apiKey gender) (fun _ => ret None)
        else ret None
    | None => ret None
    end ;;
  match aiResult with
  | Some dataUrl => ret (RemoteImage dataUrl)
  | None =>
      modelImg <- createStandardModelImage P gender ;;
      garmentImages <- loadGarments P garments ;;
      if (List.length garmentImages =? 0)%nat then
        throw "Failed to load any garment images"
      else
        let canvas_w := img_width modelImg in
        let canvas_h := img_height modelImg in
        if negb (compose_context P) then throw "Canvas not supported"
        else
          let ctx := drawImage (ImageElement modelImg) 0%float 0%float
                               (ofZ canvas_w) (ofZ canvas_h) fresh_context in
          let ctx := drawGarments P canvas_w canvas_h garmentImages 0 garments ctx in
          ret (CanvasImage canvas_w canvas_h (drawn ctx))
  end.

(** Running a computation from an empty trace. *)
Definition run {A} (m : M A) : Outcome A * list Event := m [].

Local Open Scope float_scope.

(** ** The properties of the specification, in its own words *)

(** The invariant of a placement box as the specification words it: the
    four fractions within [0,1] and an area of at least 0.02. *)
Definition fractions_in_unit (box : PlacementBox) : bool :=
  ge (x box) 0 && le (x box) 1 && ge (y box) 0 && le (y box) 1 &&
  ge (width box) 0 && le (width box) 1 &&
  ge (height box) 0 && le (height box) 1.

Definition area_ok (box : PlacementBox) : bool :=
  ge (width box * height box) 0.02.

(** The classification of a pixel as the specification words it: luma,
    channel spread and saturation, and the three background tests. *)
Definition luma (r g b : Z) : num := 0.299 * ofZ r + 0.587 * ofZ g + 0.114 * ofZ b.
Definition max_channel (r g b : Z) : num := Math_max (Math_max (ofZ r) (ofZ g)) (ofZ b).
Definition min_channel (r g b : Z) : num := Math_min (Math_min (ofZ r) (ofZ g)) (ofZ b).
Definition spread (r g b : Z) : num := max_channel r g b - min_channel r g b.
Definition epsilon : num := 0.001.
Definition saturation (r g b : Z) : num := spread r g b / (max_channel r g b + epsilon).

Definition is_background (r g b : Z) : bool :=
  (gt (luma r g b) 230 && lt (spread r g b) 25)
  || (gt (luma r g b) 210 && lt (spread r g b) 20 && lt (saturation r g b) 0.15)
  || (gt (ofZ r) 245 && gt (ofZ g) 245 && gt (ofZ b) 245).

(** [min(255, round(0.99 * A))], stored as a byte. *)
Definition scaled_alpha (a : Z) : Z :=
  to_uint8_clamp (Math_min 255 (Math_round (ofZ a * 0.99))).

(** The values of a byte, and a pixel buffer all of whose entries are
    bytes. *)
Definition byte_values : list Z := map Z.of_nat (seq 0 256).
Definition is_byte (z : Z) : Prop := (0 <= z <= 255)%Z.

(** A saturated pixel with one channel at zero is never classified as
    background, whichever channel that is (checked over all bytes). *)
Definition saturated_kept (u v : Z) : bool :=
  negb (is_background 0 u v) && negb (is_background u 0 v) && negb (is_background u v 0).

(** The drop shadow of a garment draw, and what the specification asks of
    one call of [drawGarmentWithBgRemoval] from [ctx] to [ctx']: one more
    draw, made under that shadow at alpha 0.98, and the shadow reset
    afterwards. *)
Definition soft_shadow : Shadow := mkShadow "rgba(0, 0, 0, 0.15)" 5 2 3.

Definition shadowed_draw (ctx ctx' : Context2D) : Prop :=
  exists d, drawn ctx' = (drawn ctx ++ [d])%list /\
            draw_shadow d = soft_shadow /\
            draw_alpha d = 0.98 /\
            shadow ctx' = no_shadow.

(** The state under which the next [drawImage] on a context is made. *)
Definition next_draw (ctx : Context2D) : DrawCall :=
  mkDraw (ImageElement (mkImage (FromUrl "") 0 0)) 0 0 0 0
         (globalAlpha ctx) (shadow ctx) (transform ctx).

(** The image a draw shows, and the layering of a canvas: for each draw,
    the source of the image and the rectangle it is drawn into. *)
Definition origin (d : Drawable) : HTMLImageElement :=
  match d with
  | ImageElement img => img
  | OffscreenCanvas o _ _ _ => o
  end.

Definition Rect : Type := num * num * num * num.
Definition Layer : Type := ImageSource * Rect.

Definition layer_of (d : DrawCall) : Layer :=
  (img_src (origin (draw_source d)), (draw_x d, draw_y d, draw_w d, draw_h d)).

Definition target_rect (canvas_w canvas_h : Z) (box : PlacementBox) : Rect :=
  (ofZ canvas_w * x box, ofZ canvas_h * y box,
   ofZ canvas_w * width box, ofZ canvas_h * height box).

(** An image drawn in the box of a category. *)
Definition placed (canvas_w canvas_h : Z) (category : string)
    (img : HTMLImageElement) : Layer :=
  (img_src img, target_rect canvas_w canvas_h (getDefaultBox category)).

(** The garment images that decode, in input order. *)
Definition decoded (P : Platform) (garment : GarmentInput) : list HTMLImageElement :=
  match decode P (url garment) with
  | Some (w, h) => [mkImage (FromUrl (url garment)) w h]
  | None => []
  end.

Definition loaded (P : Platform) (garments : list GarmentInput)
    : list HTMLImageElement :=
  flat_map (decoded P) garments.

(** The layers above the model image in a composed canvas. *)
Definition garment_layers (c : ComposedImage) : list Layer :=
  match c with
  | CanvasImage _ _ (_ :: garments) => map layer_of garments
  | _ => []
  end.

Definition image_size (c : ComposedImage) : option (Z * Z) :=
  match c with
  | CanvasImage w h _ => Some (w, h)
  | RemoteImage _ => None
  end.

(** The number of garment images a request carries. *)
Definition images_sent (r : GenRequest) : nat :=
  List.length (filter (fun p => match p with ReqInline _ => true | _ => false end)
                      (req_parts r)).

Definition is_remote_call (e : Event) : bool :=
  match e with EvGenerate _ => true | _ => false end.

(** The key [estimateGarmentPlacement] uses: its argument, or else the
    configured one. *)
Definition effective_key (P : Platform) (apiKey : option string) : option string :=
  truthy_string match truthy_string apiKey with
                | Some k => Some k
                | None => env_api_key P
                end.

(** The payload [fileToBase64] builds from the bytes of a file. *)
Definition payload (P : Platform) (f : File) (bytes : list Z) : InlineData :=
  mkInline match file_type f with EmptyString => "image/png" | t => t end
           (btoa P bytes).

(** What the [try] block of [estimateGarmentPlacement] makes of a response
    text: the clamped box when the text parses and the box is valid,
    nothing otherwise. *)
Definition accepted_box (P : Platform) (txt : string) : option PlacementBox :=
  match JSON_parse P (stripCodeFences txt) with
  | None => None
  | Some json =>
      match clampedBox json with
      | Threw _ => None
      | Returned b => if isValidBox b then Some b else None
      end
  end.

(** The garment layers the drawing loop produces from index [i] on: the
    garment at index [j] is drawn with the image stored at index [j] of the
    loaded images, if there is one. *)
Fixpoint layers_from (canvas_w canvas_h : Z) (garmentImages : list HTMLImageElement)
    (i : nat) (garments : list GarmentInput) : list Layer :=
  match garments with
  | [] => []
  | garment :: rest =>
      (match nth_error garmentImages i with
       | Some img => [placed canvas_w canvas_h (type garment) img]
       | None => []
       end ++ layers_from canvas_w canvas_h garmentImages (S i) rest)%list
  end.

(** What the specification asks of the layering: each garment that decodes
    is drawn in the box of its own category, in input order. *)
Definition own_layers (P : Platform) (canvas_w canvas_h : Z)
    (garments : list GarmentInput) : list Layer :=
  flat_map (fun g => map (placed canvas_w canvas_h (type g)) (decoded P g)) garments.

Definition load_events (garments : list GarmentInput) : list Event :=
  map (fun g => EvLoadImage (url g)) garments.

Definition model_image (gender : Gender) : HTMLImageElement :=
  mkImage (FromCanvas (Model.commands gender)) 400 600.

Definition gender_or_default (gender : option Gender) : Gender :=
  match gender with Some g => g | None => female end.

(** What the result and the trace of [composeTryOnImage] are when no
    credential is configured. *)
Definition local_composition (P : Platform) (garments : list GarmentInput)
    (gender : Gender) : Outcome ComposedImage * list Event :=
  if model_context P then
    let trace := EvRenderModel gender :: load_events garments in
    match loaded P garments with
    | [] => (Threw "Failed to load any garment images", trace)
    | garmentImages =>
        if compose_context P then
          (Returned
             (CanvasImage 400 600
                (drawn (drawGarments P 400 600 garmentImages 0 garments
                          (drawImage (ImageElement (model_image gender))
                                     0 0 (ofZ 400) (ofZ 600) fresh_context)))),
           trace)
        else (Threw "Canvas not supported", trace)
    end
  else (Threw "Canvas not supported", []).

(** The reading under which an empty composition fails before the model is
    rendered. *)
Definition fails_before_rendering (P : Platform) (gender : option Gender) : Prop :=
  exists message trace,
    run (composeTryOnImage P [] gender) = (Threw message, trace) /\
    forall g, ~ In (EvRenderModel g) trace.

(** A property [Q] of every event a computation adds to the trace, and a
    property [R] of the value it returns. *)
Definition emits {A} (Q : Event -> Prop) (R : A -> Prop) (m : M A) : Prop :=
  forall t, exists new,
    snd (m t) = (t ++ new)%list /\ Forall Q new /\
    match fst (m t) with
    | Returned a => R a
    | Threw _ => True
    end.

Definition at_most_five (e : Event) : Prop :=
  forall r, e = EvGenerate r -> (images_sent r <= 5)%nat.

(** ** Sample inputs *)

Module Sample.

Definition png : File := mkFile "image/png" (Some [137; 80; 78; 71]%Z).

(** No credential; every URL decodes except ["blob:broken"]; every 2D
    context is available. *)
Definition offline : Platform :=
  mkPlatform None (fun _ => "iVBORw==") (fun _ => Threw "503 Service Unavailable")
    (fun _ => None) true true (fun _ => true)
    (fun u => if String.eqb u "blob:broken" then None else Some (64, 64)%Z)
    (fun _ _ _ => [255; 255; 255; 255; 200; 10; 0; 128]%Z).

(** The same, but no offscreen 2D context can be obtained. *)
Definition no_offscreen : Platform :=
  mkPlatform None (fun _ => "iVBORw==") (fun _ => Threw "503 Service Unavailable")
    (fun _ => None) true true (fun _ => false)
    (fun u => if String.eqb u "blob:broken" then None else Some (64, 64)%Z)
    (fun _ _ _ => [255; 255; 255; 255; 200; 10; 0; 128]%Z).

(** A credential is configured; the service answers with text that is not
    JSON. *)
Definition chatty : Platform :=
  mkPlatform (Some "key") (fun _ => "iVBORw==")
    (fun _ => Returned (mkResponse None (Some "Sorry, I cannot help.")))
    (fun _ => None) true true (fun _ => true)
    (fun _ => Some (64, 64)%Z)
    (fun _ _ _ => []).

Definition shirt : HTMLImageElement := mkImage (FromUrl "blob:shirt") 64 64.
Definition broken_dress : GarmentInput := mkGarment "blob:broken" "dress" png.
Definition shoes : GarmentInput := mkGarment "blob:shoes" "footwear" png.
Definition top1 : GarmentInput := mkGarment "blob:top" "top" png.
Definition shoes_image : HTMLImageElement := mkImage (FromUrl "blob:shoes") 64 64.
Definition seven : list GarmentInput :=
  [ mkGarment "blob:1" "top" png; mkGarment "blob:2" "pants" png;
    mkGarment "blob:3" "footwear" png; mkGarment "blob:4" "accessory" png;
    mkGarment "blob:5" "accessory" png; mkGarment "blob:6" "accessory" png;
    mkGarment "blob:7" "hat" png ].

End Sample.

(** The categories the table names. *)
Definition known_categories : list string :=
  ["dress"; "tshirt"; "top"; "pants"; "shorts"; "footwear"; "accessory"]%string.

From Stdlib Require Import DecimalString.

Local Close Scope float_scope.

(** ** The model's answer, as sent and as clamped *)

Definition rotation_of (v : option JsValue) : num :=
  match v with
  | Some (JNum n) => n
  | _ => 0%float
  end.

(** The box an answer states: the four fractions of a parsed object when
    they are all numbers, as they were sent. *)
Definition raw_box (json : JsValue) : option PlacementBox :=
  match json with
  | JObj fields =>
      match assoc "x" fields, assoc "y" fields,
            assoc "width" fields, assoc "height" fields with
      | Some (JNum vx), Some (JNum vy), Some (JNum vw), Some (JNum vh) =>
          Some (mkBox vx vy vw vh (Some (rotation_of (assoc "rotationDeg" fields))))
      | _, _, _, _ => None
      end
  | _ => None
  end.

(** An answer is invalid when it states no box, or a box that breaks the
    invariants (a fraction outside [0,1], a width or height that is not
    positive, an area below 0.02). *)
Definition invalid_result (json : JsValue) : bool :=
  match raw_box json with
  | Some b => negb (isValidBox b)
  | None => true
  end.

(** The box the code builds from a parsed object: each fraction clamped. *)
Definition clamped_fields (fields : list (string * JsValue)) : PlacementBox :=
  mkBox (clamp01 (assoc "x" fields)) (clamp01 (assoc "y" fields))
        (clamp01 (assoc "width" fields)) (clamp01 (assoc "height" fields))
        (Some (rotation_of (assoc "rotationDeg" fields))).

(** The reading under which an invalid or unparsable answer (the text
    [txt] of the response) is discarded: the table's box is what the
    estimate returns. *)
Definition discards_invalid_results (P : Platform) (garmentFile : File)
    (garmentType : string) (apiKey : option string) (txt : string) : Prop :=
  match JSON_parse P (stripCodeFences txt) with
  | Some json => invalid_result json = true
  | None => True
  end ->
  fst (run (estimateGarmentPlacement P garmentFile garmentType apiKey))
    = Returned (getDefaultBox garmentType).

(** A model that answers with fractions out of range. *)
Module Overshoot.

Definition quote : string := String (ascii_of_nat 34) EmptyString.

Definition member (k v : string) : string := quote ++ k ++ quote ++ ":" ++ v.

Definition answer : string :=
  "{" ++ member "x" "1.5" ++ "," ++ member "y" "-0.2" ++ ","
      ++ member "width" "0.5" ++ "," ++ member "height" "0.4" ++ ","
      ++ member "rotationDeg" "15" ++ "}".

Definition fields : list (string * JsValue) :=
  [ ("x", JNum 1.5%float); ("y", JNum (-0.2)%float); ("width", JNum 0.5%float);
    ("height", JNum 0.4%float); ("rotationDeg", JNum 15%float) ].

Definition parsed : JsValue := JObj fields.

Definition platform : Platform :=
  mkPlatform (Some "key") (fun _ => "iVBORw==")
    (fun _ => Returned (mkResponse None (Some answer)))
    (fun s => if String.eqb s answer then Some parsed else None)
    true true (fun _ => true)
    (fun _ => Some (64, 64)) (fun _ _ _ => []).

End Overshoot.

(** ** The adapter and the compositor, continued *)

(** What [fileToBase64] gives for the file of a garment, and what
    [Promise.all] over the garments gives: every payload, or nothing when
    one file cannot be read. *)
Definition encoded_one (P : Platform) (g : GarmentInput)
    : option (InlineData * string) :=
  match file_bytes (file g) with
  | Some bytes => Some (payload P (file g) bytes, type g)
  | None => None
  end.

Fixpoint encoded (P : Platform) (garments : list GarmentInput)
    : option (list (InlineData * string)) :=
  match garments with
  | [] => Some []
  | g :: rest =>
      match encoded_one P g, encoded P rest with
      | Some d, Some ds => Some (d :: ds)
      | _, _ => None
      end
  end.

(** The request of the first attempt of [generateAITryOn]. *)
Definition first_request (apiKey : string) (garments : list GarmentInput)
    (garmentData : list (InlineData * string)) (gender : Gender) : GenRequest :=
  mkRequest apiKey image_model
    (ReqPrompt (TryOnPrompt (List.length garmentData) (map type garments) gender)
       :: garment_parts true 0 garmentData) true.

(** The two phases of [composeTryOnImage]: the attempt through the adapter,
    and the canvas composition that follows when it gave nothing. *)
Definition adapterPhase (P : Platform) (garments : list GarmentInput)
    (gender : Gender) : M (option string) :=
  match truthy_string (env_api_key P) with
  | Some apiKey =>
      if (0 <? List.length garments)%nat then
        try_catch (generateAITryOn P garments apiKey gender) (fun _ => ret None)
      else ret None
  | None => ret None
  end.

Definition composeLocally (P : Platform) (garments : list GarmentInput)
    (gender : Gender) : M ComposedImage :=
  modelImg <- createStandardModelImage P gender ;;
  garmentImages <- loadGarments P garments ;;
  if (List.length garmentImages =? 0)%nat then
    throw "Failed to load any garment images"
  else
    let canvas_w := img_width modelImg in
    let canvas_h := img_height modelImg in
    if negb (compose_context P) then throw "Canvas not supported"
    else
      let ctx := drawImage (ImageElement modelImg) 0%float 0%float
                           (ofZ canvas_w) (ofZ canvas_h) fresh_context in
      let ctx := drawGarments P canvas_w canvas_h garmentImages 0 garments ctx in
      ret (CanvasImage canvas_w canvas_h (drawn ctx)).

(** The garment layers as the drawing loop pairs them: the k-th garment of
    the input with the k-th image that decoded. *)
Definition paired_layers (P : Platform) (garments : list GarmentInput) : list Layer :=
  map (fun p => placed 400 600 (type (fst p)) (snd p))
      (combine garments (loaded P garments)).

Definition is_remote (e : Event) : Prop := is_remote_call e = true.

(** What one run of [generateAITryOn] on [garments], started with trace [t],
    may end in: a value (never an exception) and at most three remote calls
    added to the trace, at most two when there are no more than two
    garments. *)
Definition absorbed (garments : list GarmentInput) (t : list Event)
    (res : Outcome (option string) * list Event) : Prop :=
  exists r new,
    res = (Returned r, (t ++ new)%list) /\
    Forall is_remote new /\
    (List.length new <= 3)%nat /\
    ((List.length garments <= 2)%nat -> (List.length new <= 2)%nat).

(** Strings without a backtick, and strings of ASCII letters. *)
Fixpoint no_backtick (s : string) : bool :=
  match s with
  | EmptyString => true
  | String c s' => negb (Ascii.eqb c "`") && no_backtick s'
  end.

Fixpoint all_letters (s : string) : bool :=
  match s with
  | EmptyString => true
  | String c s' => is_letter c && all_letters s'
  end.

(** The shadow colour in force at each [fill] and [fillRect] of a list of
    canvas calls, starting from the shadow colour [current]. *)
Fixpoint fill_shadows (current : string) (cmds : list CanvasCmd) : list string :=
  match cmds with
  | [] => []
  | SetShadow color _ _ _ :: rest => fill_shadows color rest
  | Fill :: rest => current :: fill_shadows current rest
  | FillRect _ _ _ _ :: rest => current :: fill_shadows current rest
  | _ :: rest => fill_shadows current rest
  end.

(** ** The try-on page (FashionTryOn) and its components

    The state of the page is the tuple of its [useState] cells.  A handler
    reads the cells through the closure of the render it was created in
    ([snapshot]) and updates them through the setters; a functional update
    [setGarments(prev => ...)] applies to the state current at that moment
    ([prev]).  A handler yields the new state and the effects it has on the
    outside: toasts, revoked object URLs, a composition. *)

Record Garment := mkItem {
  g_id : string;
  g_name : string;
  g_type : string;
  g_imageUrl : string;
  g_file : File;
  g_isActive : bool
}.

Record PageState := mkPage {
  garments : list Garment;
  isGarmentSelectorOpen : bool;
  selectedGarmentType : option string;
  selectedGender : Gender;
  isProcessing : bool;
  aiImage : option ComposedImage
}.

(** The texts of the toasts, by template. *)
Inductive Message :=
| MsgAdded (name : string)
| MsgToggled (name : string) (wasActive : bool)
| MsgRemoved (name : string)
| MsgNoGarments
| MsgMissingData
| MsgExpired
| MsgCreatingAI (count : nat)
| MsgCreatingCanvas (count : nat)
| MsgGeneratedAI (count : nat)
| MsgGeneratedCanvas (count : nat)
| MsgLoadFailed
| MsgReupload
| MsgServiceUnavailable
| MsgProcessingFailed (message : string)
| MsgTryAgain
| MsgNotImage
| MsgTooLarge
| MsgUploaded.

Inductive PageEffect :=
| ToastSuccess (m : Message)
| ToastError (m : Message)
| ToastInfo (m : Message)
| RevokeObjectURL (url : string)
| Composition (inputs : list GarmentInput) (gender : Gender) (trace : list Event).

(** [s.charAt(0).toUpperCase() + s.slice(1)], on ASCII strings. *)
Definition toUpperCase (c : ascii) : ascii :=
  let n := nat_of_ascii c in
  if ((97 <=? n) && (n <=? 122))%nat then ascii_of_nat (n - 32) else c.

Definition capitalize (s : string) : string :=
  match s with
  | EmptyString => EmptyString
  | String c rest => String (toUpperCase c) rest
  end.

Definition decimal (n : nat) : string := NilZero.string_of_uint (Nat.to_uint n).

Definition has_id (id : string) (g : Garment) : bool := String.eqb (g_id g) id.

Definition set_garments (gs : list Garment) (s : PageState) : PageState :=
  mkPage gs (isGarmentSelectorOpen s) (selectedGarmentType s) (selectedGender s)
         (isProcessing s) (aiImage s).

Definition set_aiImage (img : option ComposedImage) (s : PageState) : PageState :=
  mkPage (garments s) (isGarmentSelectorOpen s) (selectedGarmentType s)
         (selectedGender s) (isProcessing s) img.

Definition set_selectedGarmentType (t : option string) (s : PageState) : PageState :=
  mkPage (garments s) (isGarmentSelectorOpen s) t (selectedGender s)
         (isProcessing s) (aiImage s).

Definition set_isProcessing (b : bool) (s : PageState) : PageState :=
  mkPage (garments s) (isGarmentSelectorOpen s) (selectedGarmentType s)
         (selectedGender s) b (aiImage s).

(** [handleGarmentUpload(file, type)]; [id] is what [crypto.randomUUID()]
    returns and [objectUrl] what [URL.createObjectURL(file)] returns. *)
Definition handleGarmentUpload (snapshot : PageState) (f : File) (type id objectUrl : string)
    (prev : PageState) : PageState * list PageEffect :=
  let existingCount :=
    List.length (filter (fun g => String.eqb (g_type g) type) (garments snapshot)) in
  let newGarment :=
    mkItem id (capitalize type ++ " " ++ decimal (existingCount + 1))
           type objectUrl f true in
  let s := set_garments (garments prev ++ [newGarment])%list prev in
  let s := set_aiImage None s in
  let s := set_selectedGarmentType None s in
  (s, [ToastSuccess (MsgAdded (g_name newGarment))]).

Definition toggled (id : string) (garment : Garment) : Garment :=
  if has_id id garment then
    mkItem (g_id garment) (g_name garment) (g_type garment) (g_imageUrl garment)
           (g_file garment) (negb (g_isActive garment))
  else garment.

Definition handleGarmentToggle (snapshot : PageState) (id : string)
    (prev : PageState) : PageState * list PageEffect :=
  let s := set_garments (map (toggled id) (garments prev)) prev in
  let s := set_aiImage None s in
  (s, match find (has_id id) (garments snapshot) with
      | Some garment => [ToastSuccess (MsgToggled (g_name garment) (g_isActive garment))]
      | None => []
      end).

Definition handleGarmentRemove (snapshot : PageState) (id : string)
    (prev : PageState) : PageState * list PageEffect :=
  match find (has_id id) (garments snapshot) with
  | None => (prev, [])
  | Some garment =>
      let s := set_garments (filter (fun g => negb (has_id id g)) (garments prev)) prev in
      let s := set_aiImage None s in
      (s, [RevokeObjectURL (g_imageUrl garment); ToastSuccess (MsgRemoved (g_name garment))])
  end.

(** The cleanup of the effect registered with the dependencies [garments]:
    it revokes the object URL of every garment of the array the render that
    registered it had.  React runs it when a later render finds another
    array in [garments], and when the page unmounts. *)
Definition cleanup (registered : list Garment) : list PageEffect :=
  map (fun g => RevokeObjectURL (g_imageUrl g)) registered.

(** A removal as the page performs it.  When the identifier is found the
    handler replaces the array ([filter] builds a new one, also when it
    drops nothing), so the render that follows runs the cleanup of the
    render the handler was called in; when it is not found the handler
    returns before any update and nothing is rendered again. *)
Definition removeGarment (s : PageState) (id : string) : PageState * list PageEffect :=
  let (next, effects) := handleGarmentRemove s id s in
  match find (has_id id) (garments s) with
  | Some _ => (next, (effects ++ cleanup (garments s))%list)
  | None => (next, effects)
  end.

Definition is_revocation (e : PageEffect) : bool :=
  match e with
  | RevokeObjectURL _ => true
  | _ => false
  end.

(** [msg.includes(needle)] *)
Fixpoint includes (needle msg : string) : bool :=
  if String.prefix needle msg then true
  else match msg with
       | EmptyString => false
       | String _ rest => includes needle rest
       end.

(** The toast of the [catch] block of [handleAIProcess]. *)
Definition error_toast (message : string) : Message :=
  if includes "Failed to load any garment images" message then MsgLoadFailed
  else if includes "Failed to load image" message then MsgReupload
  else if includes "503" message || includes "Service Unavailable" message
       then MsgServiceUnavailable
  else MsgProcessingFailed message.

(** The check for expired blob URLs: constructing an image and setting its
    source does not throw, so neither branch reports a garment. *)
Definition is_expired (g : Garment) : bool :=
  if String.prefix "blob:" (g_imageUrl g) then false else false.

(** The garments handed to the composition. *)
Definition composition_input (g : Garment) : GarmentInput :=
  mkGarment (g_imageUrl g) (g_type g) (g_file g).

(** A data URL is truthy when it is not empty (a canvas always encodes to a
    non-empty one). *)
Definition truthy_image (c : ComposedImage) : bool :=
  match c with
  | RemoteImage EmptyString => false
  | _ => true
  end.

(** [handleAIProcess], run to completion without any other handler in
    between.  A [File] object is always truthy, so [!g.file] never holds. *)
Definition handleAIProcess (P : Platform) (snapshot prev : PageState)
    : PageState * list PageEffect :=
  let activeGarments := filter g_isActive (garments snapshot) in
  if (List.length activeGarments =? 0)%nat then (prev, [ToastError MsgNoGarments])
  else
    let invalidGarments :=
      filter (fun g => match g_imageUrl g with EmptyString => true | _ => false end)
             activeGarments in
    if (0 <? List.length invalidGarments)%nat then (prev, [ToastError MsgMissingData])
    else
      let expiredGarments := filter is_expired activeGarments in
      if (0 <? List.length expiredGarments)%nat then (prev, [ToastError MsgExpired])
      else
        let s := set_aiImage None (set_isProcessing true prev) in
        let hasApiKey := match truthy_string (env_api_key P) with
                         | Some _ => true
                         | None => false
                         end in
        let n := List.length activeGarments in
        let info := ToastInfo (if hasApiKey then MsgCreatingAI n else MsgCreatingCanvas n) in
        let inputs := map composition_input activeGarments in
        let gender := selectedGender snapshot in
        let (outcome, trace) := run (composeTryOnImage P inputs (Some gender)) in
        let composition := Composition inputs gender trace in
        let failed message :=
          (set_isProcessing false s,
           [info; composition; ToastError (error_toast message)]) in
        match outcome with
        | Returned composed =>
            if negb (truthy_image composed) then failed "Failed to generate try-on image"
            else
              (set_isProcessing false (set_aiImage (Some composed) s),
               [info; composition;
                ToastSuccess (if hasApiKey then MsgGeneratedAI n else MsgGeneratedCanvas n)])
        | Threw message => failed message
        end.

Definition activeGarments (s : PageState) : list Garment :=
  filter g_isActive (garments s).

(** The checks [handleAIProcess] makes before it composes: an active
    garment, and an image URL for each active garment. *)
Definition ready_to_compose (s : PageState) : Prop :=
  activeGarments s <> [] /\ forall g, In g (activeGarments s) -> g_imageUrl g <> "".

(** [FileUpload.handleFileSelect]: the file handed to [onFileUpload], if
    any, and the toast; [size] is [file.size]. *)
Definition handleFileSelect (f : File) (size : Z) : option File * PageEffect :=
  if negb (String.prefix "image/" (file_type f)) then (None, ToastError MsgNotImage)
  else if (10 * 1024 * 1024 <? size)%Z then (None, ToastError MsgTooLarge)
  else (Some f, ToastSuccess MsgUploaded).

(** [GarmentGallery]: the category buttons and the garments shown. *)
Definition categories : list string :=
  ["all"; "tshirt"; "footwear"; "accessory"; "dress"].

Definition filteredGarments (selectedCategory : string) (gs : list Garment)
    : list Garment :=
  if String.eqb selectedCategory "all" then gs
  else filter (fun g => String.eqb (g_type g) selectedCategory) gs.

(** [GarmentTypeSelector]: the types a garment can be uploaded as. *)
Definition garmentTypes : list string :=
  ["tshirt"; "pants"; "shorts"; "dress"; "footwear"; "accessory"].

(** ** More sample inputs *)

Module Demo.

(** A credential is configured and the image model answers every request
    for an image with a text part and a PNG. *)
Definition studio : Platform :=
  mkPlatform (Some "key") (fun _ => "iVBORw==")
    (fun r => if req_image_output r
              then Returned (mkResponse
                               (Some [mkPart (Some "Here is the outfit.") None;
                                      mkPart None (Some (mkInline "image/png" "QUJD"))])
                               None)
              else Threw "model unavailable")
    (fun _ => None) true true (fun _ => true)
    (fun _ => Some (64, 64)) (fun _ _ _ => []).

(** No credential and no 2D context for the model canvas. *)
Definition no_canvas : Platform :=
  mkPlatform None (fun _ => "") (fun _ => Threw "429") (fun _ => None)
    false true (fun _ => true) (fun _ => None) (fun _ _ _ => []).

(** A collection of three garments: a top and a dress whose image no
    longer decodes are active, a pair of pants is not. *)
Definition wardrobe : PageState :=
  mkPage [ mkItem "a" "Tshirt 1" "tshirt" "blob:top" Sample.png true;
           mkItem "b" "Pants 1" "pants" "blob:pants" Sample.png false;
           mkItem "c" "Dress 1" "dress" "blob:broken" Sample.png true ]
         false None female false None.

(** Only the dress whose image no longer decodes. *)
Definition lone_dress : PageState :=
  mkPage [ mkItem "c" "Dress 1" "dress" "blob:broken" Sample.png true ]
         false None female false None.

End Demo.

Local Open Scope float_scope.

Lemma eqb_of_not_in (c k : string) (l : list string) :
  ~ In c l -> In k l -> String.eqb c k = false.
Proof.
  intros Hc Hk. apply String.eqb_neq. intros ->. exact (Hc Hk).
Qed.

Lemma getDefaultBox_cases (c : string) :
  In (getDefaultBox c)
     [ mkBox 0.225 0.08 0.55 0.82 (Some 0); mkBox 0.25 0.18 0.5 0.4 (Some 0);
       mkBox 0.25 0.35 0.5 0.45 (Some 0); mkBox 0.25 0.35 0.5 0.25 (Some 0);
       mkBox 0.35 0.78 0.3 0.18 (Some 0); mkBox 0.4 0.1 0.2 0.2 (Some 0);
       mkBox 0.25 0.2 0.5 0.5 (Some 0) ].
Proof.
  unfold getDefaultBox.
  repeat match goal with
         | |- context [String.eqb c ?k] => destruct (String.eqb c k)
         end; simpl; tauto.
Qed.

Lemma composeBox_getDefaultBox (c : string) : composeBox c = getDefaultBox c.
Proof. reflexivity. Qed.

Lemma getDefaultBox_valid (c : string) : isValidBox (getDefaultBox c) = true.
Proof.
  pose proof (getDefaultBox_cases c) as H. simpl in H.
  repeat (destruct H as [<- | H]; [vm_compute; reflexivity | ]).
  contradiction.
Qed.

(** C3. The placement lookup is a table: each named category has the box
    the specification lists, every other category string gets the default
    box, the table written inline in the compositor is the same function,
    every box it returns has its fractions in [0,1] and an area of at
    least 0.02, and equal categories give equal boxes. *)
Theorem placement_table :
  getDefaultBox "dress" = mkBox 0.225 0.08 0.55 0.82 (Some 0) /\
  getDefaultBox "top" = mkBox 0.25 0.18 0.5 0.4 (Some 0) /\
  getDefaultBox "pants" = mkBox 0.25 0.35 0.5 0.45 (Some 0) /\
  getDefaultBox "shorts" = mkBox 0.25 0.35 0.5 0.25 (Some 0) /\
  getDefaultBox "footwear" = mkBox 0.35 0.78 0.3 0.18 (Some 0) /\
  getDefaultBox "accessory" = mkBox 0.4 0.1 0.2 0.2 (Some 0) /\
  (forall c, ~ In c known_categories ->
             getDefaultBox c = mkBox 0.25 0.2 0.5 0.5 (Some 0)) /\
  (forall c, composeBox c = getDefaultBox c) /\
  (forall c, fractions_in_unit (getDefaultBox c) = true /\
             area_ok (getDefaultBox c) = true) /\
  (forall c1 c2, c1 = c2 -> getDefaultBox c1 = getDefaultBox c2).
Proof.
  repeat split; try reflexivity.
  - intros c Hc. unfold getDefaultBox.
    rewrite !(eqb_of_not_in c _ known_categories Hc) by (simpl; tauto).
    reflexivity.
  - pose proof (getDefaultBox_cases c) as H. simpl in H.
    repeat (destruct H as [<- | H]; [vm_compute; reflexivity | ]).
    contradiction.
  - pose proof (getDefaultBox_cases c) as H. simpl in H.
    repeat (destruct H as [<- | H]; [vm_compute; reflexivity | ]).
    contradiction.
  - intros c1 c2 ->. reflexivity.
Qed.

Lemma placement_table_witness :
  getDefaultBox "hat" = mkBox 0.25 0.2 0.5 0.5 (Some 0) /\
  getDefaultBox "tshirt" = getDefaultBox "top".
Proof.
  destruct placement_table as (_ & Htop & _ & _ & _ & _ & Hdefault & _ & _ & _).
  split.
  - apply Hdefault. intros H. simpl in H.
    repeat (destruct H as [H | H]; [discriminate H|]). exact H.
  - rewrite Htop. reflexivity.
Defined.

(** ** Background stripper: the pixel loop *)

Lemma forallb_byte_values (f : Z -> bool) :
  forallb f byte_values = true -> forall z, is_byte z -> f z = true.
Proof.
  intros H z [Hlo Hhi].
  rewrite forallb_forall in H. apply H.
  unfold byte_values. rewrite <- (Z2Nat.id z) by assumption.
  apply in_map, in_seq. lia.
Qed.

Lemma strip_alpha_classified (r g b a : Z) :
  strip_alpha r g b a = if is_background r g b then 0%Z else scaled_alpha a.
Proof.
  unfold strip_alpha, is_background, scaled_alpha, luma, spread, saturation,
    max_channel, min_channel, epsilon.
  destruct (gt _ 230 && lt _ 25); [reflexivity|].
  destruct (gt _ 210 && lt _ 20 && lt _ 0.15); [reflexivity|].
  destruct (gt _ 245 && gt _ 245 && gt _ 245); reflexivity.
Qed.

Lemma scaled_alpha_exact (a : Z) :
  is_byte a -> scaled_alpha a = Z.min 255 ((99 * a + 50) / 100).
Proof.
  intros Ha.
  apply Z.eqb_eq.
  revert a Ha. apply forallb_byte_values. vm_compute. reflexivity.
Qed.

Lemma scaled_alpha_pos (a : Z) : is_byte a -> (0 < a)%Z -> (0 < scaled_alpha a)%Z.
Proof.
  intros Ha Hpos. rewrite scaled_alpha_exact by assumption.
  destruct Ha as [_ Hhi].
  apply Z.min_glb_lt; [lia|].
  apply Z.div_str_pos. lia.
Qed.

Lemma saturated_kept_all :
  forallb (fun u => forallb (saturated_kept u) byte_values) byte_values = true.
Proof. vm_compute. reflexivity. Qed.

Lemma saturated_never_background (r g b : Z) :
  is_byte r -> is_byte g -> is_byte b ->
  Z.min r (Z.min g b) = 0%Z -> is_background r g b = false.
Proof.
  intros Hr Hg Hb Hmin.
  assert (Hall : forall u v, is_byte u -> is_byte v -> saturated_kept u v = true).
  { intros u v Hu Hv.
    apply (forallb_byte_values (saturated_kept u)); [|exact Hv].
    apply (forallb_byte_values (fun u => forallb (saturated_kept u) byte_values));
      [exact saturated_kept_all | exact Hu]. }
  assert (Hz : r = 0%Z \/ g = 0%Z \/ b = 0%Z) by (unfold is_byte in *; lia).
  destruct Hz as [-> | [-> | ->]].
  - specialize (Hall g b Hg Hb). unfold saturated_kept in Hall.
    apply andb_prop in Hall as [Hall _]. apply andb_prop in Hall as [Hall _].
    now apply negb_true_iff.
  - specialize (Hall r b Hr Hb). unfold saturated_kept in Hall.
    apply andb_prop in Hall as [Hall _]. apply andb_prop in Hall as [_ Hall].
    now apply negb_true_iff.
  - specialize (Hall r g Hr Hg). unfold saturated_kept in Hall.
    apply andb_prop in Hall as [_ Hall].
    now apply negb_true_iff.
Qed.

Lemma nth_skip4 (a b c d : Z) (l : list Z) (n : nat) :
  nth (4 + n) (a :: b :: c :: d :: l) 0%Z = nth n l 0%Z.
Proof. reflexivity. Qed.

Lemma strip_loop_length (data : list Z) :
  List.length (strip_loop data) = List.length data.
Proof.
  remember (List.length data) as n eqn:Hn.
  revert data Hn. induction n as [n IH] using lt_wf_ind. intros data Hn.
  destruct data as [|r [|g [|b [|a rest]]]]; try (subst; reflexivity).
  simpl strip_loop. simpl List.length in *.
  rewrite (IH (List.length rest)) with (data := rest); [lia | lia | reflexivity].
Qed.

Lemma strip_loop_pixel (k : nat) : forall (data : list Z),
  (4 * k + 3 < List.length data)%nat ->
  nth (4 * k) (strip_loop data) 0%Z = nth (4 * k) data 0%Z /\
  nth (4 * k + 1) (strip_loop data) 0%Z = nth (4 * k + 1) data 0%Z /\
  nth (4 * k + 2) (strip_loop data) 0%Z = nth (4 * k + 2) data 0%Z /\
  nth (4 * k + 3) (strip_loop data) 0%Z =
    strip_alpha (nth (4 * k) data 0%Z) (nth (4 * k + 1) data 0%Z)
                (nth (4 * k + 2) data 0%Z) (nth (4 * k + 3) data 0%Z).
Proof.
  induction k as [|k IH]; intros data Hlen.
  - destruct data as [|r [|g [|b [|a rest]]]]; simpl in Hlen; try lia.
    simpl. repeat split; reflexivity.
  - destruct data as [|r [|g [|b [|a rest]]]]; simpl in Hlen; try lia.
    assert (Hrest : (4 * k + 3 < List.length rest)%nat) by lia.
    specialize (IH rest Hrest).
    change (strip_loop (r :: g :: b :: a :: rest))
      with (r :: g :: b :: strip_alpha r g b a :: strip_loop rest).
    replace (4 * S k)%nat with (4 + 4 * k)%nat by lia.
    replace (4 + 4 * k + 1)%nat with (4 + (4 * k + 1))%nat by lia.
    replace (4 + 4 * k + 2)%nat with (4 + (4 * k + 2))%nat by lia.
    replace (4 + 4 * k + 3)%nat with (4 + (4 * k + 3))%nat by lia.
    rewrite !nth_skip4. exact IH.
Qed.

Lemma nth_is_byte (data : list Z) (i : nat) :
  Forall is_byte data -> is_byte (nth i data 0%Z).
Proof.
  intros H. destruct (Nat.lt_ge_cases i (List.length data)) as [Hi | Hi].
  - rewrite Forall_forall in H. apply H, nth_In, Hi.
  - rewrite nth_overflow by exact Hi. unfold is_byte. lia.
Qed.

(** C4. For every pixel of the buffer the stripper processes, the colour
    bytes are left as they are and the new alpha is 0 when one of the three
    background tests holds, and [min(255, round(0.99 * A))] otherwise, which
    is the integer [(99 * A + 50) / 100]; so a pixel whose alpha is 0 keeps
    alpha 0, a pixel with a positive alpha gets alpha 0 exactly when it is
    classified as background, and a fully saturated pixel (one channel at 0)
    is never classified as background and keeps its alpha up to the 0.99
    scale. *)
Theorem background_stripper_pixel (data : list Z) (k : nat)
    (Hbytes : Forall is_byte data)
    (Hk : (4 * k + 3 < List.length data)%nat) :
  let R := nth (4 * k) data 0%Z in
  let G := nth (4 * k + 1) data 0%Z in
  let B := nth (4 * k + 2) data 0%Z in
  let A := nth (4 * k + 3) data 0%Z in
  let out := strip_loop data in
  List.length out = List.length data /\
  nth (4 * k) out 0%Z = R /\
  nth (4 * k + 1) out 0%Z = G /\
  nth (4 * k + 2) out 0%Z = B /\
  nth (4 * k + 3) out 0%Z = (if is_background R G B then 0%Z else scaled_alpha A) /\
  scaled_alpha A = Z.min 255 ((99 * A + 50) / 100) /\
  (A = 0%Z -> nth (4 * k + 3) out 0%Z = 0%Z) /\
  ((0 < A)%Z -> (nth (4 * k + 3) out 0%Z = 0%Z <-> is_background R G B = true)) /\
  (Z.min R (Z.min G B) = 0%Z -> nth (4 * k + 3) out 0%Z = scaled_alpha A).
Proof.
  intros R G B A out.
  destruct (strip_loop_pixel k data Hk) as (Hr & Hg & Hb & Ha).
  fold R G B A out in Hr, Hg, Hb, Ha.
  rewrite strip_alpha_classified in Ha.
  assert (HA : is_byte A) by (apply nth_is_byte, Hbytes).
  repeat split.
  - apply strip_loop_length.
  - exact Hr.
  - exact Hg.
  - exact Hb.
  - exact Ha.
  - apply scaled_alpha_exact, HA.
  - intros H0. rewrite Ha, H0. destruct (is_background R G B); reflexivity.
  - rewrite Ha. destruct (is_background R G B); [intros _; reflexivity|].
    intros Hz. pose proof (scaled_alpha_pos A HA H) as Hp. lia.
  - rewrite Ha. destruct (is_background R G B); [reflexivity | discriminate].
  - intros Hmin. rewrite Ha.
    rewrite (saturated_never_background R G B); try apply nth_is_byte; auto.
Qed.

Lemma background_stripper_pixel_witness :
  let data := [255; 255; 255; 255; 200; 10; 0; 128]%Z in
  nth 7 (strip_loop data) 0%Z = 127%Z /\ nth 3 (strip_loop data) 0%Z = 0%Z.
Proof.
  assert (Hb : Forall is_byte [255; 255; 255; 255; 200; 10; 0; 128]%Z)
    by (repeat constructor; unfold is_byte; lia).
  split.
  - destruct (background_stripper_pixel _ 1 Hb) as (_ & _ & _ & _ & _ & _ & _ & _ & H).
    + simpl; lia.
    + etransitivity; [exact (H eq_refl) | vm_compute; reflexivity].
  - destruct (background_stripper_pixel _ 0 Hb) as (_ & _ & _ & _ & H & _).
    + simpl; lia.
    + etransitivity; [exact H | vm_compute; reflexivity].
Defined.

(** ** The destination context after a garment draw *)

Lemma draw_with_offscreen (P : Platform) (k : nat) (ctx : Context2D)
    (img : HTMLImageElement) (x y w h : num) :
  offscreen_context P k = true ->
  drawGarmentWithBgRemoval P k ctx img x y w h =
    let off_w := canvas_dimension 300 (Math_max 1 (Math_floor w)) in
    let off_h := canvas_dimension 150 (Math_max 1 (Math_floor h)) in
    mkCtx 0.98 no_shadow (transform ctx) (saved ctx)
      (drawn ctx ++
       [mkDraw (OffscreenCanvas img off_w off_h (strip_loop (raster P img off_w off_h)))
               x y w h 0.98 soft_shadow (transform ctx)])%list.
Proof. intros H. unfold drawGarmentWithBgRemoval. rewrite H. reflexivity. Qed.

Lemma draw_without_offscreen (P : Platform) (k : nat) (ctx : Context2D)
    (img : HTMLImageElement) (x y w h : num) :
  offscreen_context P k = false ->
  drawGarmentWithBgRemoval P k ctx img x y w h =
    mkCtx 0.95 (shadow ctx) (transform ctx) (saved ctx)
      (drawn ctx ++
       [mkDraw (ImageElement img) x y w h 0.95 (shadow ctx) (transform ctx)])%list.
Proof. intros H. unfold drawGarmentWithBgRemoval. rewrite H. reflexivity. Qed.

(** C9, as stated, fails where no offscreen 2D context can be obtained: the
    image is then drawn under the shadow the context already had, not the
    soft drop shadow. *)
Lemma shadow_not_applied_without_offscreen :
  ~ shadowed_draw fresh_context
      (drawGarmentWithBgRemoval Sample.no_offscreen 0 fresh_context
         Sample.shirt 100 108 200 240).
Proof.
  intros (d & Hd & Hs & _).
  rewrite draw_without_offscreen in Hd by reflexivity.
  simpl in Hd. injection Hd as <-.
  discriminate Hs.
Qed.

(** C9 (amended). A garment draw that goes through the offscreen buffer is
    made under the soft drop shadow (rgba(0,0,0,0.15), blur 5, offset (2,3))
    at global alpha 0.98, and leaves the shadow reset (transparent, blur 0,
    offsets 0), so the next draw on the context is made without shadow.
    When no offscreen context can be obtained, the image itself is drawn at
    alpha 0.95 under the shadow the context already had, which is left
    as it was. *)
Theorem garment_draw_shadow (P : Platform) (k : nat) (ctx : Context2D)
    (img : HTMLImageElement) (x y w h : num) :
  let ctx' := drawGarmentWithBgRemoval P k ctx img x y w h in
  if offscreen_context P k then
    shadowed_draw ctx ctx' /\ draw_shadow (next_draw ctx') = no_shadow
  else
    drawn ctx' = (drawn ctx ++
                  [mkDraw (ImageElement img) x y w h 0.95 (shadow ctx) (transform ctx)])%list
    /\ shadow ctx' = shadow ctx.
Proof.
  intros ctx'. subst ctx'.
  destruct (offscreen_context P k) eqn:Hoff.
  - rewrite draw_with_offscreen by exact Hoff. split.
    + eexists. repeat split.
    + reflexivity.
  - rewrite draw_without_offscreen by exact Hoff. split; reflexivity.
Qed.

(** C10. When [drawGarmentWithBgRemoval] returns, the global alpha of the
    destination context is 0.98, or 0.95 if no offscreen context could be
    obtained; it is below 1 and nothing restores it (the saved states and
    the transform are as before, only the shadow was reset), so the next
    draw on the context is made at that alpha. *)
Theorem globalAlpha_left_reduced (P : Platform) (k : nat) (ctx : Context2D)
    (img : HTMLImageElement) (x y w h : num) :
  let ctx' := drawGarmentWithBgRemoval P k ctx img x y w h in
  globalAlpha ctx' = (if offscreen_context P k then 0.98 else 0.95) /\
  lt (globalAlpha ctx') 1 = true /\
  shadow ctx' = (if offscreen_context P k then no_shadow else shadow ctx) /\
  saved ctx' = saved ctx /\
  transform ctx' = transform ctx /\
  draw_alpha (next_draw ctx') = globalAlpha ctx' /\
  (forall src x1 y1 w1 h1,
     drawn (drawImage src x1 y1 w1 h1 ctx') =
       (drawn ctx' ++
        [mkDraw src x1 y1 w1 h1 (if offscreen_context P k then 0.98 else 0.95)
                (shadow ctx') (transform ctx')])%list).
Proof.
  intros ctx'. subst ctx'.
  destruct (offscreen_context P k) eqn:Hoff.
  - rewrite draw_with_offscreen by exact Hoff. repeat split.
  - rewrite draw_without_offscreen by exact Hoff. repeat split.
Qed.

(** ** Procedural model renderer *)

Lemma createStandardModelImage_run (P : Platform) (gender : Gender) (t : list Event) :
  model_context P = true ->
  createStandardModelImage P gender t =
    (Returned (mkImage (FromCanvas (Model.commands gender)) 400 600),
     (t ++ [EvRenderModel gender])%list).
Proof.
  intros H. unfold createStandardModelImage. rewrite H. reflexivity.
Qed.

(** C7. Where a 2D context is available, the renderer produces a 400 x 600
    image for "male" and for "female", drawn by the command list of that
    gender, which contains the shoulder polygon; the half-width of that
    polygon along its lower edge is 42 for male and 38 for female, 4 more
    for male (along its upper edge it is 55 and 48). *)
Theorem model_size_and_shoulders (P : Platform) (Hctx : model_context P = true) :
  (forall g, In g [male; female] ->
     exists img,
       run (createStandardModelImage P g) = (Returned img, [EvRenderModel g]) /\
       img_width img = 400%Z /\ img_height img = 600%Z /\
       img_src img = FromCanvas (Model.commands g) /\
       exists before after,
         Model.commands g =
           (before ++ Model.polygon (Model.shoulder_vertices g) ++ after)%list) /\
  Model.shoulder_half_width male = 42 /\
  Model.shoulder_half_width female = 38 /\
  Model.shoulder_half_width male - Model.shoulder_half_width female = 4 /\
  Model.shoulder_top_half_width male = 55 /\
  Model.shoulder_top_half_width female = 48.
Proof.
  split; [|repeat split; vm_compute; reflexivity].
  intros g _. eexists. split.
  - unfold run. rewrite createStandardModelImage_run by exact Hctx. reflexivity.
  - repeat split.
    unfold Model.commands, Model.shoulders.
    exists (Model.background ++ Model.floor_shadow ++
            [SetShadow "transparent" 0 0 0] ++
            Model.head g ++ Model.hair g ++ Model.face ++ Model.neck)%list.
    eexists. rewrite <- !app_assoc. reflexivity.
Qed.

Lemma model_size_and_shoulders_witness :
  exists img,
    run (createStandardModelImage Sample.offline female)
      = (Returned img, [EvRenderModel female]) /\
    img_width img = 400%Z /\ img_height img = 600%Z.
Proof.
  destruct (model_size_and_shoulders Sample.offline eq_refl) as [H _].
  destruct (H female (or_intror (or_introl eq_refl))) as (img & Hrun & Hw & Hh & _).
  exists img. repeat split; assumption.
Defined.

(** ** Placement estimated by the remote model *)

Lemma ltb_leb (a b : num) : PrimFloat.ltb a b = true -> PrimFloat.leb a b = true.
Proof.
  rewrite FloatAxioms.ltb_spec, FloatAxioms.leb_spec. unfold SFltb, SFleb.
  destruct (SFcompare (Prim2SF a) (Prim2SF b)) as [[ | | ]|]; congruence.
Qed.

Lemma valid_box_invariants (b : PlacementBox) :
  isValidBox b = true ->
  fractions_in_unit b = true /\ area_ok b = true /\
  gt (width b) 0 = true /\ gt (height b) 0 = true.
Proof.
  unfold isValidBox, fractions_in_unit, area_ok. intros Hb.
  repeat (apply andb_prop in Hb; destruct Hb as [Hb ?]).
  repeat split; auto.
  repeat (apply andb_true_intro; split); auto; unfold ge, gt in *; now apply ltb_leb.
Qed.

Lemma estimate_given_text (P : Platform) (garmentFile : File)
    (garmentType : string) (apiKey : option string)
    (key : string) (bytes : list Z) (resp : GenResponse) (txt : string) :
  effective_key P apiKey = Some key ->
  file_bytes garmentFile = Some bytes ->
  generateContent P (placement_request key garmentType (payload P garmentFile bytes))
    = Returned resp ->
  response_text resp = Some txt ->
  run (estimateGarmentPlacement P garmentFile garmentType apiKey)
    = (Returned match accepted_box P txt with
                | Some b => b
                | None => getDefaultBox garmentType
                end,
       [EvGenerate (placement_request key garmentType (payload P garmentFile bytes))]).
Proof.
  intros Hkey Hfile Hresp Htxt.
  unfold run, estimateGarmentPlacement. cbv zeta.
  change (truthy_string match truthy_string apiKey with
                        | Some k => Some k
                        | None => env_api_key P
                        end) with (effective_key P apiKey).
  rewrite Hkey.
  unfold bind at 1. unfold fileToBase64. rewrite Hfile.
  fold (payload P garmentFile bytes). unfold ret at 1.
  unfold bind at 1. unfold generate, bind at 1, emit, lift. rewrite Hresp.
  unfold bind at 1. rewrite Htxt. unfold ret at 1.
  unfold try_catch, parsePlacement, accepted_box.
  destruct (JSON_parse P (stripCodeFences txt)) as [json|]; [|reflexivity].
  unfold bind, ret, lift.
  destruct (clampedBox json) as [b|e]; [|reflexivity].
  destruct (isValidBox b); reflexivity.
Qed.

Lemma accepted_box_valid (P : Platform) (txt garmentType : string) :
  isValidBox match accepted_box P txt with
             | Some b => b
             | None => getDefaultBox garmentType
             end = true.
Proof.
  unfold accepted_box.
  destruct (JSON_parse P (stripCodeFences txt)) as [json|];
    [|apply getDefaultBox_valid].
  destruct (clampedBox json) as [b|e]; [|apply getDefaultBox_valid].
  destruct (isValidBox b) eqn:Hb; [exact Hb | apply getDefaultBox_valid].
Qed.

Lemma degenerate_box_invalid (r : option num) : isValidBox (mkBox 0 0 0 0 r) = false.
Proof. reflexivity. Qed.

(** What is accepted, by the shape of the parsed value: of an object, the
    box of its clamped fractions when that box is valid; of anything else
    (null, a number, a string, a list), nothing. *)
Lemma accepted_box_cases (P : Platform) (txt : string) :
  accepted_box P txt =
    match JSON_parse P (stripCodeFences txt) with
    | Some (JObj fields) =>
        if isValidBox (clamped_fields fields) then Some (clamped_fields fields) else None
    | _ => None
    end.
Proof.
  unfold accepted_box.
  destruct (JSON_parse P (stripCodeFences txt)) as [[ | b | n | s | items | fields]|];
    try reflexivity;
    cbn [clampedBox get_prop]; unfold clamp01;
    now rewrite degenerate_box_invalid.
Qed.

(** C6, as stated, fails: the model's answer
    {x: 1.5, y: -0.2, width: 0.5, height: 0.4, rotationDeg: 15} breaks the
    invariants (x above 1, y below 0), yet it is not replaced by the table's
    box for "top": its fractions are clamped and the box (1, 0, 0.5, 0.4),
    rotated by 15 degrees, is returned. *)
Lemma out_of_range_result_is_kept :
  ~ discards_invalid_results Overshoot.platform Sample.png "top" None Overshoot.answer.
Proof.
  unfold discards_invalid_results. intros H.
  assert (Hreturned :
    fst (run (estimateGarmentPlacement Overshoot.platform Sample.png "top" None))
      = Returned (mkBox 1 0 0.5 0.4 (Some 15))) by (vm_compute; reflexivity).
  rewrite Hreturned in H.
  assert (Hinvalid : invalid_result Overshoot.parsed = true) by (vm_compute; reflexivity).
  specialize (H Hinvalid).
  apply (f_equal (fun o => match o with
                           | Returned b => PrimFloat.ltb (x b) 0.5
                           | Threw _ => false
                           end)) in H.
  vm_compute in H. discriminate H.
Qed.

(** C6 (amended). Given a key, a readable file and a response text, the
    estimate never fails.  The four fractions of the model's answer are
    first clamped into [0,1] (a field that is missing or not a number
    counting as 0) and the clamped box is then validated: text that does
    not parse, an answer that is not an object, and an answer whose clamped
    box fails [isValidBox] are replaced by the table's box for the garment
    type; an answer whose clamped box passes is returned in its clamped
    form, also when the fractions as sent were out of range.  The box
    returned satisfies the invariants in every case: fractions in [0,1],
    positive width and height, area at least 0.02. *)
Theorem estimate_clamps_then_validates (P : Platform) (garmentFile : File)
    (garmentType : string) (apiKey : option string)
    (key : string) (bytes : list Z) (resp : GenResponse) (txt : string)
    (Hkey : effective_key P apiKey = Some key)
    (Hfile : file_bytes garmentFile = Some bytes)
    (Hresp : generateContent P
               (placement_request key garmentType (payload P garmentFile bytes))
             = Returned resp)
    (Htxt : response_text resp = Some txt) :
  exists box,
    run (estimateGarmentPlacement P garmentFile garmentType apiKey)
      = (Returned box,
         [EvGenerate (placement_request key garmentType (payload P garmentFile bytes))]) /\
    box = match JSON_parse P (stripCodeFences txt) with
          | Some (JObj fields) =>
              if isValidBox (clamped_fields fields) then clamped_fields fields
              else getDefaultBox garmentType
          | _ => getDefaultBox garmentType
          end /\
    isValidBox box = true /\
    fractions_in_unit box = true /\ area_ok box = true /\
    gt (width box) 0 = true /\ gt (height box) 0 = true.
Proof.
  eexists. split; [apply (estimate_given_text _ _ _ _ _ _ _ _ Hkey Hfile Hresp Htxt)|].
  split.
  - rewrite accepted_box_cases.
    destruct (JSON_parse P (stripCodeFences txt)) as [[ | b | n | s | items | fields]|];
      try reflexivity.
    destruct (isValidBox (clamped_fields fields)); reflexivity.
  - pose proof (accepted_box_valid P txt garmentType) as Hvalid.
    split; [exact Hvalid|]. apply valid_box_invariants, Hvalid.
Qed.

Lemma estimate_clamps_then_validates_witness :
  exists box,
    run (estimateGarmentPlacement Overshoot.platform Sample.png "top" None)
      = (Returned box,
         [EvGenerate (placement_request "key" "top"
                        (payload Overshoot.platform Sample.png [137; 80; 78; 71]%Z))]) /\
    box = clamped_fields Overshoot.fields /\
    isValidBox box = true.
Proof.
  destruct (estimate_clamps_then_validates Overshoot.platform Sample.png "top" None
              "key" [137; 80; 78; 71]%Z
              (mkResponse None (Some Overshoot.answer)) Overshoot.answer
              eq_refl eq_refl eq_refl eq_refl)
    as (box & Hrun & Hbox & Hvalid & _).
  exists box. split; [exact Hrun|]. split; [exact Hbox | exact Hvalid].
Defined.

(** ** Compositor *)

Lemma composeBox_rotation (c : string) : rotationDeg (composeBox c) = Some 0%float.
Proof.
  rewrite composeBox_getDefaultBox.
  pose proof (getDefaultBox_cases c) as H. simpl in H.
  repeat (destruct H as [<- | H]; [reflexivity | ]).
  contradiction.
Qed.

Lemma drawGarmentWithBgRemoval_layers (P : Platform) (k : nat) (ctx : Context2D)
    (img : HTMLImageElement) (x y w h : num) :
  map layer_of (drawn (drawGarmentWithBgRemoval P k ctx img x y w h)) =
    (map layer_of (drawn ctx) ++ [(img_src img, (x, y, w, h))])%list.
Proof.
  destruct (offscreen_context P k) eqn:Hoff.
  - rewrite draw_with_offscreen by exact Hoff. cbn [drawn]. rewrite map_app. reflexivity.
  - rewrite draw_without_offscreen by exact Hoff. cbn [drawn]. rewrite map_app. reflexivity.
Qed.

Lemma drawGarment_layers (P : Platform) (cw ch : Z) (imgs : list HTMLImageElement)
    (i : nat) (g : GarmentInput) (ctx : Context2D) :
  map layer_of (drawn (drawGarment P cw ch imgs i g ctx)) =
    (map layer_of (drawn ctx) ++
     match nth_error imgs i with
     | Some img => [placed cw ch (type g) img]
     | None => []
     end)%list.
Proof.
  unfold drawGarment.
  destruct (List.length imgs <=? i)%nat eqn:Hlen.
  - apply Nat.leb_le in Hlen. apply nth_error_None in Hlen. rewrite Hlen.
    now rewrite app_nil_r.
  - destruct (nth_error imgs i) as [img|]; [|now rewrite app_nil_r].
    cbv zeta. rewrite composeBox_rotation.
    change (truthy 0 && strict_neq 0 0) with false. cbv iota.
    rewrite drawGarmentWithBgRemoval_layers.
    rewrite composeBox_getDefaultBox. reflexivity.
Qed.

Lemma drawGarments_layers (P : Platform) (cw ch : Z) (imgs : list HTMLImageElement)
    (gs : list GarmentInput) : forall (i : nat) (ctx : Context2D),
  map layer_of (drawn (drawGarments P cw ch imgs i gs ctx)) =
    (map layer_of (drawn ctx) ++ layers_from cw ch imgs i gs)%list.
Proof.
  induction gs as [|g rest IH]; intros i ctx; simpl.
  - now rewrite app_nil_r.
  - rewrite IH, drawGarment_layers, app_assoc. reflexivity.
Qed.

Lemma drawGarments_cons (P : Platform) (cw ch : Z) (imgs : list HTMLImageElement)
    (gs : list GarmentInput) : forall (i : nat) (ctx : Context2D),
  exists more, drawn (drawGarments P cw ch imgs i gs ctx) = (drawn ctx ++ more)%list.
Proof.
  induction gs as [|g rest IH]; intros i ctx; simpl.
  - exists []. now rewrite app_nil_r.
  - destruct (IH (S i) (drawGarment P cw ch imgs i g ctx)) as [more ->].
    assert (Hone : exists one, drawn (drawGarment P cw ch imgs i g ctx)
                               = (drawn ctx ++ one)%list).
    { unfold drawGarment.
      destruct (List.length imgs <=? i)%nat; [exists []; now rewrite app_nil_r|].
      destruct (nth_error imgs i) as [img|]; [|exists []; now rewrite app_nil_r].
      cbv zeta. rewrite composeBox_rotation.
      change (truthy 0 && strict_neq 0 0) with false. cbv iota.
      destruct (offscreen_context P i) eqn:Hoff.
      - rewrite draw_with_offscreen by exact Hoff. eexists. reflexivity.
      - rewrite draw_without_offscreen by exact Hoff. eexists. reflexivity. }
    destruct Hone as [one ->]. exists (one ++ more)%list. now rewrite app_assoc.
Qed.

Lemma loadGarments_run (P : Platform) (gs : list GarmentInput) : forall t,
  loadGarments P gs t = (Returned (loaded P gs), (t ++ load_events gs)%list).
Proof.
  induction gs as [|g rest IH]; intros t.
  - cbn. unfold ret. now rewrite app_nil_r.
  - cbn [loadGarments loaded flat_map load_events map].
    cbv beta iota zeta delta [bind try_catch loadImage emit decoded ret throw].
    destruct (decode P (url g)) as [[w h]|];
      rewrite IH; rewrite <- app_assoc; reflexivity.
Qed.

Lemma compose_without_key (P : Platform) (gs : list GarmentInput)
    (gender : option Gender) :
  truthy_string (env_api_key P) = None ->
  run (composeTryOnImage P gs gender)
    = local_composition P gs (gender_or_default gender).
Proof.
  intros Hkey. unfold run, composeTryOnImage, local_composition. cbv zeta.
  rewrite Hkey. fold (gender_or_default gender).
  unfold bind at 1. unfold ret at 1.
  unfold bind at 1. unfold createStandardModelImage.
  destruct (model_context P); [|reflexivity].
  cbv beta iota zeta delta [negb bind emit ret]. 
  rewrite loadGarments_run. cbn [app].
  destruct (loaded P gs) as [|img imgs]; [reflexivity|].
  cbn [List.length Nat.eqb img_width img_height]. unfold throw.
  destruct (compose_context P); reflexivity.
Qed.

Lemma garment_layers_drawGarments (P : Platform) (imgs : list HTMLImageElement)
    (gs : list GarmentInput) (first : DrawCall) (ctx : Context2D) :
  drawn ctx = [first] ->
  garment_layers (CanvasImage 400 600 (drawn (drawGarments P 400 600 imgs 0 gs ctx)))
    = layers_from 400 600 imgs 0 gs.
Proof.
  intros Hctx.
  pose proof (drawGarments_layers P 400 600 imgs gs 0 ctx) as Hl.
  destruct (drawGarments_cons P 400 600 imgs gs 0 ctx) as [more Hm].
  rewrite Hm in *. rewrite Hctx in *. cbn [app garment_layers map] in *.
  now injection Hl.
Qed.

Lemma layers_from_all_decoded (P : Platform) (cw ch : Z) (gs : list GarmentInput) :
  (forall g, In g gs -> decode P (url g) <> None) ->
  forall before,
    layers_from cw ch (before ++ loaded P gs) (List.length before) gs
      = own_layers P cw ch gs.
Proof.
  induction gs as [|g rest IH]; intros Hdec before; [reflexivity|].
  cbn [layers_from own_layers loaded flat_map].
  assert (Hg : exists img, decoded P g = [img]).
  { unfold decoded. specialize (Hdec g (or_introl eq_refl)).
    destruct (decode P (url g)) as [[w h]|]; [eexists; reflexivity | congruence]. }
  destruct Hg as [img Hg]. rewrite Hg. cbn [app map].
  rewrite nth_error_app2, Nat.sub_diag by reflexivity. cbn [nth_error app].
  f_equal.
  specialize (IH (fun g' H => Hdec g' (or_intror H)) (before ++ [img])%list).
  rewrite <- app_assoc, length_app, Nat.add_1_r in IH. exact IH.
Qed.

Lemma own_layers_length (P : Platform) (cw ch : Z) (gs : list GarmentInput) :
  (forall g, In g gs -> decode P (url g) <> None) ->
  List.length (own_layers P cw ch gs) = List.length gs.
Proof.
  induction gs as [|g rest IH]; intros Hdec; [reflexivity|].
  cbn [own_layers flat_map]. rewrite length_app, length_map.
  fold (own_layers P cw ch rest). rewrite IH by (intros; apply Hdec; now right).
  unfold decoded. specialize (Hdec g (or_introl eq_refl)).
  destruct (decode P (url g)) as [[w h]|]; [reflexivity | congruence].
Qed.

(** C2, as stated, fails: with no garments and no credential the model
    image has been rendered by the time the error is raised. *)
Lemma empty_composition_renders_model :
  ~ fails_before_rendering Sample.offline (Some female).
Proof.
  intros (message & trace & Hrun & Hnone).
  rewrite compose_without_key in Hrun by reflexivity.
  cbv in Hrun. injection Hrun as _ <-.
  apply (Hnone female). now left.
Qed.

(** C2 (amended). With an empty garment list and no credential, the
    composition fails for every gender value: with "Failed to load any
    garment images" once the model image has been rendered (the only
    thing done before the failure: nothing is loaded, no composition canvas
    is drawn on), or with "Canvas not supported", nothing rendered, where no
    2D context is available for the model. *)
Theorem empty_composition_fails (P : Platform) (gender : option Gender)
    (Hkey : truthy_string (env_api_key P) = None) :
  run (composeTryOnImage P [] gender) =
    if model_context P then
      (Threw "Failed to load any garment images",
       [EvRenderModel (gender_or_default gender)])
    else (Threw "Canvas not supported", []).
Proof.
  rewrite compose_without_key by exact Hkey.
  unfold local_composition. destruct (model_context P); reflexivity.
Qed.

Lemma empty_composition_fails_witness :
  run (composeTryOnImage Sample.offline [] (Some male)) =
    (Threw "Failed to load any garment images", [EvRenderModel male]).
Proof.
  exact (empty_composition_fails Sample.offline (Some male) eq_refl).
Defined.

(** C8. With no credential, one garment that decodes and gender "female",
    where the 2D contexts are available, the composition returns a canvas
    image of the model's size, 400 x 600, holding the model and the
    garment; nothing is thrown. *)
Theorem single_garment_composition (P : Platform) (garment : GarmentInput)
    (w h : Z)
    (Hkey : truthy_string (env_api_key P) = None)
    (Hmodel : model_context P = true)
    (Hcanvas : compose_context P = true)
    (Hdecode : decode P (url garment) = Some (w, h)) :
  exists image,
    run (composeTryOnImage P [garment] (Some female))
      = (Returned image, [EvRenderModel female; EvLoadImage (url garment)]) /\
    image_size image = Some (Model.canvas_width, Model.canvas_height) /\
    image_size image = Some (400, 600)%Z /\
    garment_layers image =
      [placed 400 600 (type garment) (mkImage (FromUrl (url garment)) w h)].
Proof.
  rewrite compose_without_key by exact Hkey.
  unfold local_composition. rewrite Hmodel, Hcanvas.
  assert (Hl : loaded P [garment] = [mkImage (FromUrl (url garment)) w h]).
  { unfold loaded, decoded. cbn [flat_map]. now rewrite Hdecode. }
  rewrite Hl. eexists. split; [reflexivity|]. split; [reflexivity|].
  split; [reflexivity|].
  rewrite (garment_layers_drawGarments P _ _
             (mkDraw (ImageElement (model_image female)) 0 0 (ofZ 400) (ofZ 600)
                     1 (shadow fresh_context) [])) by reflexivity.
  reflexivity.
Qed.

Lemma single_garment_composition_witness :
  exists image,
    run (composeTryOnImage Sample.offline [Sample.top1] (Some female))
      = (Returned image, [EvRenderModel female; EvLoadImage "blob:top"]) /\
    image_size image = Some (400, 600)%Z.
Proof.
  destruct (single_garment_composition Sample.offline Sample.top1 64 64
              eq_refl eq_refl eq_refl eq_refl) as (image & Hrun & _ & Hsize & _).
  exists image. split; [exact Hrun | exact Hsize].
Defined.

(** C1 (the code at the failing input). A dress that fails to decode
    followed by footwear that decodes: the composition returns an image,
    the dress is not drawn, and the footwear image is drawn in the box of
    the dress, (90, 48, 220, 492), not in the box of footwear,
    (140, 468, 120, 108). *)
Theorem partial_failure_misplaces_garment :
  exists image,
    run (composeTryOnImage Sample.offline [Sample.broken_dress; Sample.shoes]
           (Some female))
      = (Returned image,
         [EvRenderModel female; EvLoadImage "blob:broken"; EvLoadImage "blob:shoes"]) /\
    garment_layers image = [placed 400 600 "dress" Sample.shoes_image] /\
    own_layers Sample.offline 400 600 [Sample.broken_dress; Sample.shoes]
      = [placed 400 600 "footwear" Sample.shoes_image] /\
    garment_layers image
      <> own_layers Sample.offline 400 600 [Sample.broken_dress; Sample.shoes].
Proof.
  rewrite compose_without_key by reflexivity.
  exists (CanvasImage 400 600
            (drawn (drawGarments Sample.offline 400 600
                      (loaded Sample.offline [Sample.broken_dress; Sample.shoes])
                      0 [Sample.broken_dress; Sample.shoes]
                      (drawImage (ImageElement (model_image female))
                         0 0 (ofZ 400) (ofZ 600) fresh_context)))).
  split; [reflexivity|].
  rewrite (garment_layers_drawGarments Sample.offline _ _
             (mkDraw (ImageElement (model_image female)) 0 0 (ofZ 400) (ofZ 600)
                     1 (shadow fresh_context) [])) by reflexivity.
  split; [reflexivity|]. split; [reflexivity|].
  intros Heq.
  apply (f_equal (fun l => match l with
                           | [(_, (rx, _, _, _))] => PrimFloat.ltb rx 100
                           | _ => false
                           end)) in Heq.
  vm_compute in Heq. discriminate Heq.
Qed.

(** ** Remote generation adapter: what is sent *)

Section Emits.

Context {Q : Event -> Prop}.

Lemma emits_ret {A} (R : A -> Prop) (a : A) : R a -> emits Q R (ret a).
Proof. intros Ha t. exists []. cbn. rewrite app_nil_r. auto. Qed.

Lemma emits_throw {A} (R : A -> Prop) (e : string) : emits Q R (throw e).
Proof. intros t. exists []. cbn. rewrite app_nil_r. auto. Qed.

Lemma emits_lift {A} (R : A -> Prop) (o : Outcome A) :
  (forall a, o = Returned a -> R a) -> emits Q R (lift o).
Proof.
  intros Ho t. exists []. cbn. rewrite app_nil_r. repeat split; auto.
  destruct o; auto.
Qed.

Lemma emits_emit (e : Event) : Q e -> emits Q (fun _ => True) (emit e).
Proof. intros He t. exists [e]. cbn. auto. Qed.

Lemma emits_bind {A B} (R : A -> Prop) (R' : B -> Prop) (m : M A) (k : A -> M B) :
  emits Q R m -> (forall a, R a -> emits Q R' (k a)) -> emits Q R' (bind m k).
Proof.
  intros Hm Hk t. unfold bind.
  destruct (Hm t) as (new & Ht & Hnew & Hr).
  destruct (m t) as [[a|e] t1]; cbn in Ht, Hr; subst t1.
  - destruct (Hk a Hr (t ++ new)%list) as (new' & Ht' & Hnew' & Hr').
    exists (new ++ new')%list. rewrite Ht', app_assoc.
    repeat split; auto. apply Forall_app; auto.
  - exists new. cbn. auto.
Qed.

Lemma emits_try_catch {A} (R : A -> Prop) (m : M A) (handler : string -> M A) :
  emits Q (fun _ => True) m -> (forall a, R a) \/ emits Q R m ->
  (forall e, emits Q R (handler e)) -> emits Q R (try_catch m handler).
Proof.
  intros Hm HR Hh t. unfold try_catch.
  destruct (Hm t) as (new & Ht & Hnew & _).
  destruct (m t) as [[a|e] t1] eqn:Hmt; cbn in Ht; subst t1.
  - exists new. cbn. repeat split; auto.
    destruct HR as [HR | HR]; [apply HR|].
    specialize (HR t). rewrite Hmt in HR. destruct HR as (_ & _ & _ & HR). exact HR.
  - destruct (Hh e (t ++ new)%list) as (new' & Ht' & Hnew' & Hr').
    exists (new ++ new')%list. rewrite Ht', app_assoc.
    repeat split; auto. apply Forall_app; auto.
Qed.

Lemma emits_fileToBase64 (P : Platform) (f : File) :
  emits Q (fun _ => True) (fileToBase64 P f).
Proof.
  unfold fileToBase64. destruct (file_bytes f); [now apply emits_ret | apply emits_throw].
Qed.

Lemma emits_encodeGarments (P : Platform) (gs : list GarmentInput) :
  emits Q (fun d => List.length d = List.length gs) (encodeGarments P gs).
Proof.
  unfold encodeGarments. induction gs as [|g rest IH]; cbn [mapM].
  - now apply emits_ret.
  - eapply emits_bind.
    + eapply emits_bind; [apply emits_fileToBase64|].
      intros d _. apply (emits_ret (fun _ => True)). exact I.
    + intros b _. eapply emits_bind; [exact IH|].
      intros bs Hbs. apply emits_ret. cbn. now rewrite Hbs.
Qed.

Lemma emits_generate (P : Platform) (r : GenRequest) :
  Q (EvGenerate r) -> emits Q (fun _ => True) (generate P r).
Proof.
  intros Hr. unfold generate. eapply emits_bind; [apply emits_emit, Hr|].
  intros _ _. now apply emits_lift.
Qed.

End Emits.

Lemma images_sent_garment_parts (b : bool) (d : list (InlineData * string)) :
  forall i,
    List.length (filter (fun p => match p with ReqInline _ => true | _ => false end)
                        (garment_parts b i d)) = List.length d.
Proof.
  induction d as [|[payload t] rest IH]; intros i; cbn; [reflexivity|].
  now rewrite IH.
Qed.

Lemma sliced_garments (gs : list GarmentInput) :
  (if (5 <? List.length gs)%nat then firstn 5 gs else gs) = firstn 5 gs.
Proof.
  destruct (5 <? List.length gs)%nat eqn:H; [reflexivity|].
  apply Nat.ltb_ge in H. now rewrite firstn_all2.
Qed.

Lemma generateAITryOn_emits (P : Platform) (gs : list GarmentInput)
    (apiKey : string) (gender : Gender) :
  emits at_most_five (fun _ => True) (generateAITryOn P gs apiKey gender).
Proof.
  unfold generateAITryOn. rewrite sliced_garments.
  assert (Hlen : (List.length (firstn 5 gs) <= 5)%nat) by apply firstn_le_length.
  assert (Hreq : forall model prompt b d out,
             (List.length d <= 5)%nat ->
             at_most_five (EvGenerate (mkRequest apiKey model
                                         (ReqPrompt prompt :: garment_parts b 0 d) out))).
  { intros model prompt b d out Hd r [= <-]. unfold images_sent. cbn.
    now rewrite images_sent_garment_parts. }
  eapply emits_bind with (R := fun _ => True).
  - apply emits_try_catch; [|left; auto|].
    + unfold firstAttempt. eapply emits_bind; [apply emits_encodeGarments|].
      intros d Hd. cbv beta in Hd. eapply emits_bind; [apply emits_generate, Hreq; lia|].
      intros; now apply emits_ret.
    + intros _. destruct (2 <? _)%nat; [|now apply emits_ret].
      apply emits_try_catch; [|left; auto|intros; now apply emits_ret].
      unfold retryAttempt. eapply emits_bind; [apply emits_encodeGarments|].
      intros d Hd. cbv beta in Hd. eapply emits_bind.
      * apply emits_generate, Hreq. rewrite Hd.
        etransitivity; [apply firstn_le_length | lia].
      * intros; now apply emits_ret.
  - intros [dataUrl|] _; [now apply emits_ret|].
    eapply emits_bind with (R := fun _ => True); [|intros; now apply emits_ret].
    apply emits_try_catch; [|left; auto|intros; now apply emits_ret].
    unfold stylingAnalysis. eapply emits_bind; [apply emits_encodeGarments|].
    intros d Hd. cbv beta in Hd. eapply emits_bind; [apply emits_generate, Hreq; lia|].
    intros r _. destruct (response_text r); [now apply emits_ret | apply emits_throw].
Qed.

Lemma load_events_not_remote (gs : list GarmentInput) :
  filter is_remote_call (load_events gs) = [].
Proof. induction gs as [|g rest IH]; [reflexivity | exact IH]. Qed.

Lemma generateAITryOn_sliced (P : Platform) (gs : list GarmentInput)
    (apiKey : string) (gender : Gender) :
  generateAITryOn P gs apiKey gender = generateAITryOn P (firstn 5 gs) apiKey gender.
Proof.
  unfold generateAITryOn. rewrite !sliced_garments, firstn_firstn. reflexivity.
Qed.

(** C5. With no credential configured the composition makes no remote
    call; every supplied garment is loaded, in input order, and when they
    all decode every one of them is drawn, in input order, in the box of its
    own category (as many garment layers as garments: 7 for 7).  The cap is
    in the remote adapter only: it works on the first five garments, and no
    request it makes carries more than five garment images. *)
Theorem no_credential_skips_adapter (P : Platform) (gs : list GarmentInput)
    (gender : option Gender)
    (Hkey : truthy_string (env_api_key P) = None) :
  let result := run (composeTryOnImage P gs gender) in
  filter is_remote_call (snd result) = [] /\
  (model_context P = true ->
   snd result = EvRenderModel (gender_or_default gender) :: load_events gs) /\
  (model_context P = true -> compose_context P = true -> gs <> [] ->
   (forall g, In g gs -> decode P (url g) <> None) ->
   exists image,
     fst result = Returned image /\
     garment_layers image = own_layers P 400 600 gs /\
     List.length (garment_layers image) = List.length gs) /\
  (forall apiKey g,
     generateAITryOn P gs apiKey g = generateAITryOn P (firstn 5 gs) apiKey g) /\
  (forall apiKey g, emits at_most_five (fun _ => True) (generateAITryOn P gs apiKey g)).
Proof.
  intros result. subst result. rewrite compose_without_key by exact Hkey.
  unfold local_composition. repeat split.
  - destruct (model_context P); [|reflexivity].
    destruct (loaded P gs); [|destruct (compose_context P)];
      cbn [snd filter is_remote_call]; apply load_events_not_remote.
  - intros ->. destruct (loaded P gs); [|destruct (compose_context P)]; reflexivity.
  - intros -> -> Hne Hdec.
    pose proof (layers_from_all_decoded P 400 600 gs Hdec []) as Hall.
    cbn [app List.length] in Hall.
    destruct (loaded P gs) as [|img imgs] eqn:Hl.
    + exfalso. destruct gs as [|g rest]; [now apply Hne|].
      specialize (Hdec g (or_introl eq_refl)).
      unfold loaded in Hl. cbn [flat_map] in Hl. unfold decoded at 1 in Hl.
      destruct (decode P (url g)) as [[w h]|]; [discriminate Hl | congruence].
    + eexists. split; [reflexivity|].
      rewrite (garment_layers_drawGarments P _ _
                 (mkDraw (ImageElement (model_image (gender_or_default gender)))
                         0 0 (ofZ 400) (ofZ 600) 1 (shadow fresh_context) []))
        by reflexivity.
      rewrite Hall. split; [reflexivity|]. now apply own_layers_length.
  - intros apiKey g. apply generateAITryOn_sliced.
  - intros apiKey g. apply generateAITryOn_emits.
Qed.

Lemma no_credential_skips_adapter_witness :
  filter is_remote_call
    (snd (run (composeTryOnImage Sample.offline Sample.seven (Some female)))) = [] /\
  exists image,
    fst (run (composeTryOnImage Sample.offline Sample.seven (Some female)))
      = Returned image /\
    List.length (garment_layers image) = 7%nat.
Proof.
  destruct (no_credential_skips_adapter Sample.offline Sample.seven (Some female)
              eq_refl) as (Hnone & _ & Hall & _).
  split; [exact Hnone|].
  destruct Hall as (image & Himg & _ & Hlen).
  - reflexivity.
  - reflexivity.
  - discriminate.
  - intros g Hg. cbn in Hg.
    repeat (destruct Hg as [<- | Hg]; [discriminate|]). contradiction.
  - exists image. split; [exact Himg | exact Hlen].
Defined.


(** ** The adapter and the compositor, continued *)

Lemma compose_two_phases (P : Platform) (gs : list GarmentInput)
    (gender : option Gender) :
  composeTryOnImage P gs gender =
    bind (adapterPhase P gs (gender_or_default gender))
         (fun aiResult =>
            match aiResult with
            | Some dataUrl => ret (RemoteImage dataUrl)
            | None => composeLocally P gs (gender_or_default gender)
            end).
Proof. reflexivity. Qed.

Lemma composeLocally_run (P : Platform) (gs : list GarmentInput) (g : Gender)
    (t : list Event) :
  composeLocally P gs g t =
    (fst (local_composition P gs g), (t ++ snd (local_composition P gs g))%list).
Proof.
  unfold composeLocally, local_composition.
  cbv beta iota zeta delta [bind createStandardModelImage emit ret throw].
  destruct (model_context P); cbn [negb fst snd]; [|now rewrite app_nil_r].
  rewrite loadGarments_run.
  destruct (loaded P gs) as [|img imgs].
  - cbn [List.length Nat.eqb fst snd]. rewrite <- app_assoc. reflexivity.
  - cbn [List.length Nat.eqb img_width img_height].
    destruct (compose_context P); cbn [negb fst snd]; rewrite <- app_assoc; reflexivity.
Qed.

Lemma encodeGarments_run (P : Platform) (gs : list GarmentInput) (t : list Event) :
  encodeGarments P gs t =
    (match encoded P gs with
     | Some d => Returned d
     | None => Threw "arrayBuffer rejected"
     end, t).
Proof.
  unfold encodeGarments. revert t. induction gs as [|g rest IH]; intros t; [reflexivity|].
  cbn [mapM encoded]. unfold encoded_one, payload.
  cbv beta iota zeta delta [bind fileToBase64 ret throw].
  destruct (file_bytes (file g)) as [bytes|]; [|reflexivity].
  rewrite IH. destruct (encoded P rest); reflexivity.
Qed.

Lemma absorbed_0 (gs : list GarmentInput) (t : list Event) (r : option string) :
  absorbed gs t (Returned r, t).
Proof.
  exists r, []. rewrite app_nil_r. repeat split; auto; cbn; lia.
Qed.

Lemma absorbed_1 (gs : list GarmentInput) (t : list Event) (r : option string)
    (q1 : GenRequest) :
  absorbed gs t (Returned r, (t ++ [EvGenerate q1])%list).
Proof.
  exists r, [EvGenerate q1]. repeat split; auto; cbn; try lia.
  repeat constructor.
Qed.

Lemma absorbed_2 (gs : list GarmentInput) (t : list Event) (r : option string)
    (q1 q2 : GenRequest) :
  absorbed gs t (Returned r, ((t ++ [EvGenerate q1]) ++ [EvGenerate q2])%list).
Proof.
  exists r, [EvGenerate q1; EvGenerate q2]. rewrite <- app_assoc.
  repeat split; auto; cbn; try lia. repeat constructor.
Qed.

Lemma absorbed_3 (gs : list GarmentInput) (t : list Event) (r : option string)
    (q1 q2 q3 : GenRequest) :
  (2 < List.length gs)%nat ->
  absorbed gs t
    (Returned r, (((t ++ [EvGenerate q1]) ++ [EvGenerate q2]) ++ [EvGenerate q3])%list).
Proof.
  intros Hlen. exists r, [EvGenerate q1; EvGenerate q2; EvGenerate q3].
  rewrite <- !app_assoc. repeat split; auto; cbn; try lia. repeat constructor.
Qed.

Ltac adapter_step :=
  first
    [ rewrite encodeGarments_run
    | progress cbv beta iota zeta delta
        [bind try_catch ret throw lift emit generate]
    | match goal with
      | |- context [match encoded ?P ?l with _ => _ end] =>
          destruct (encoded P l) eqn:?
      | |- context [match generateContent ?P ?r with _ => _ end] =>
          destruct (generateContent P r) eqn:?
      | |- context [match image_of_response ?r with _ => _ end] =>
          destruct (image_of_response r) eqn:?
      | |- context [match response_text ?r with _ => _ end] =>
          destruct (response_text r) eqn:?
      | |- context [if (2 <? ?n)%nat then _ else _] =>
          destruct (2 <? n)%nat eqn:?
      end ].

Lemma generateAITryOn_absorbed (P : Platform) (gs : list GarmentInput)
    (apiKey : string) (gender : Gender) (t : list Event) :
  absorbed gs t (generateAITryOn P gs apiKey gender t).
Proof.
  unfold generateAITryOn. rewrite sliced_garments.
  unfold firstAttempt, retryAttempt, stylingAnalysis.
  repeat adapter_step;
    try apply absorbed_0; try apply absorbed_1; try apply absorbed_2;
    apply absorbed_3;
    match goal with
    | H : (2 <? _)%nat = true |- _ =>
        apply Nat.ltb_lt in H;
        rewrite length_firstn in H; lia
    end.
Qed.

Lemma image_of_response_nonempty (r : GenResponse) (dataUrl : string) :
  image_of_response r = Some dataUrl -> dataUrl <> "".
Proof.
  unfold image_of_response.
  destruct (candidate_parts r) as [parts|]; [|discriminate].
  destruct (find is_image_part parts) as [[txt [d|]]|]; try discriminate.
  destruct (data d); [discriminate|]. intros [= <-]. discriminate.
Qed.

Lemma generateAITryOn_image (P : Platform) (gs : list GarmentInput)
    (apiKey : string) (gender : Gender) (t : list Event) (dataUrl : string) :
  fst (generateAITryOn P gs apiKey gender t) = Returned (Some dataUrl) ->
  dataUrl <> "".
Proof.
  unfold generateAITryOn. rewrite sliced_garments.
  unfold firstAttempt, retryAttempt, stylingAnalysis.
  repeat adapter_step; cbn [fst]; intros H; try discriminate H;
    injection H as <-; eapply image_of_response_nonempty; eassumption.
Qed.

(** X21. The adapter never throws: whatever the files and the service do,
    [generateAITryOn] returns (an image as a non-empty data URL, or null),
    having made at most three requests, and at most two when it is given no
    more than two garments (the retry with the first two garments is then
    not made). *)
Theorem adapter_absorbs_every_failure (P : Platform) (gs : list GarmentInput)
    (apiKey : string) (gender : Gender) (t : list Event) :
  exists result requests,
    generateAITryOn P gs apiKey gender t = (Returned result, (t ++ requests)%list) /\
    Forall is_remote requests /\
    (List.length requests <= 3)%nat /\
    ((List.length gs <= 2)%nat -> (List.length requests <= 2)%nat) /\
    (forall dataUrl, result = Some dataUrl -> dataUrl <> "").
Proof.
  destruct (generateAITryOn_absorbed P gs apiKey gender t)
    as (r & new & Hrun & Hrem & Hlen & Hsmall).
  exists r, new. repeat split; auto.
  intros dataUrl ->. apply (generateAITryOn_image P gs apiKey gender t).
  now rewrite Hrun.
Qed.

Lemma adapter_absorbs_every_failure_witness :
  exists result requests,
    generateAITryOn Sample.chatty [Sample.top1; Sample.shoes] "key" female [] =
      (Returned result, requests) /\ (List.length requests <= 2)%nat.
Proof.
  destruct (adapter_absorbs_every_failure Sample.chatty [Sample.top1; Sample.shoes]
              "key" female []) as (r & requests & Hrun & _ & _ & Hsmall & _).
  exists r, requests. split; [exact Hrun|]. apply Hsmall. cbn. lia.
Defined.

Lemma adapterPhase_run (P : Platform) (gs : list GarmentInput) (g : Gender)
    (t : list Event) :
  exists r new,
    adapterPhase P gs g t = (Returned r, (t ++ new)%list) /\
    Forall is_remote new /\ (List.length new <= 3)%nat /\
    (truthy_string (env_api_key P) = None -> new = [] /\ r = None) /\
    (gs = [] -> new = [] /\ r = None).
Proof.
  unfold adapterPhase.
  destruct (truthy_string (env_api_key P)) as [apiKey|].
  - destruct gs as [|g0 rest].
    + exists None, []. cbn. rewrite app_nil_r. repeat split; auto.
    + cbn [List.length Nat.ltb Nat.leb]. unfold try_catch.
      destruct (generateAITryOn_absorbed P (g0 :: rest) apiKey g t)
        as (r & new & -> & Hrem & Hlen & _).
      exists r, new. repeat split; auto; discriminate.
  - exists None, []. cbn. rewrite app_nil_r. repeat split; auto.
Qed.

Lemma compose_outcome (P : Platform) (gs : list GarmentInput)
    (gender : option Gender) :
  let canvas := local_composition P gs (gender_or_default gender) in
  exists remote,
    Forall is_remote remote /\ (List.length remote <= 3)%nat /\
    (truthy_string (env_api_key P) = None \/ gs = [] -> remote = []) /\
    ((exists dataUrl,
        run (composeTryOnImage P gs gender) = (Returned (RemoteImage dataUrl), remote)) \/
     run (composeTryOnImage P gs gender) = (fst canvas, (remote ++ snd canvas)%list)).
Proof.
  intros canvas. subst canvas. rewrite compose_two_phases. unfold run, bind.
  destruct (adapterPhase_run P gs (gender_or_default gender) [])
    as (r & new & -> & Hrem & Hlen & Hkey & Hnil).
  cbn [app]. exists new. repeat split; auto.
  - intros [H | H]; [now apply Hkey | now apply Hnil].
  - destruct r as [dataUrl|].
    + left. exists dataUrl. reflexivity.
    + right. apply composeLocally_run.
Qed.

(** X1. Whatever the platform answers, a composition is either the image the
    remote service returned, obtained after at most three remote calls and
    nothing else, or exactly the canvas composition (its image or its
    error), preceded by at most three remote calls; without a credential,
    or without garments, no remote call is made. *)
Theorem compose_remote_or_canvas (P : Platform) (gs : list GarmentInput)
    (gender : option Gender) :
  let canvas := local_composition P gs (gender_or_default gender) in
  exists remote,
    Forall is_remote remote /\ (List.length remote <= 3)%nat /\
    (truthy_string (env_api_key P) = None \/ gs = [] -> remote = []) /\
    ((exists dataUrl,
        run (composeTryOnImage P gs gender) = (Returned (RemoteImage dataUrl), remote)) \/
     run (composeTryOnImage P gs gender) = (fst canvas, (remote ++ snd canvas)%list)).
Proof.
  intros canvas. destruct (compose_outcome P gs gender) as (remote & H).
  exists remote. exact H.
Qed.

Lemma compose_remote_or_canvas_witness :
  exists remote,
    remote = [] /\
    run (composeTryOnImage Sample.offline [Sample.shoes] None) =
      (fst (local_composition Sample.offline [Sample.shoes] female),
       (remote ++ snd (local_composition Sample.offline [Sample.shoes] female))%list).
Proof.
  destruct (compose_remote_or_canvas Sample.offline [Sample.shoes] None)
    as (remote & _ & _ & Hnone & [[u H] | H]).
  - cbv in H. discriminate H.
  - exists remote. split; [apply Hnone; now left | exact H].
Defined.

(** X2. The only exceptions a composition can raise are "Failed to load any
    garment images" and "Canvas not supported": no failure of the remote
    service, of reading a file or of decoding an image reaches the
    caller. *)
Theorem compose_only_two_errors (P : Platform) (gs : list GarmentInput)
    (gender : option Gender) (message : string)
    (Hthrew : fst (run (composeTryOnImage P gs gender)) = Threw message) :
  message = "Failed to load any garment images" \/ message = "Canvas not supported".
Proof.
  destruct (compose_outcome P gs gender) as (remote & _ & _ & _ & [[u H] | H]);
    rewrite H in Hthrew; cbn [fst] in Hthrew; [discriminate|].
  unfold local_composition in Hthrew.
  destruct (model_context P); [|injection Hthrew as <-; now right].
  destruct (loaded P gs); [injection Hthrew as <-; now left|].
  destruct (compose_context P); [discriminate | injection Hthrew as <-; now right].
Qed.

Lemma compose_only_two_errors_witness :
  "Canvas not supported" = "Failed to load any garment images" \/
  "Canvas not supported" = "Canvas not supported".
Proof.
  exact (compose_only_two_errors Demo.no_canvas [Sample.shoes] None
           "Canvas not supported" eq_refl).
Defined.

(** X3. When a credential is configured, there is at least one garment, the
    files of the first five garments can be read and the first response of
    the image model carries an image, the composition returns that image as
    a data URL after this one request: the model is not rendered and no
    garment image is loaded. *)
Theorem remote_image_bypasses_canvas (P : Platform) (gs : list GarmentInput)
    (gender : option Gender) (apiKey : string)
    (garmentData : list (InlineData * string)) (resp : GenResponse) (dataUrl : string)
    (Hkey : truthy_string (env_api_key P) = Some apiKey)
    (Hgs : gs <> [])
    (Hfiles : encoded P (firstn 5 gs) = Some garmentData)
    (Hresp : generateContent P
               (first_request apiKey (firstn 5 gs) garmentData (gender_or_default gender))
             = Returned resp)
    (Himage : image_of_response resp = Some dataUrl) :
  run (composeTryOnImage P gs gender) =
    (Returned (RemoteImage dataUrl),
     [EvGenerate (first_request apiKey (firstn 5 gs) garmentData
                    (gender_or_default gender))]).
Proof.
  rewrite compose_two_phases. unfold run, bind, adapterPhase. rewrite Hkey.
  destruct gs as [|g0 rest]; [contradiction|].
  cbn [List.length Nat.ltb Nat.leb].
  unfold try_catch, generateAITryOn. rewrite sliced_garments.
  unfold firstAttempt, first_request in *.
  cbv beta iota zeta delta [bind try_catch ret throw lift emit generate].
  rewrite encodeGarments_run, Hfiles.
  cbv beta iota zeta. cbn [app]. rewrite Hresp.
  cbv beta iota zeta. rewrite Himage. reflexivity.
Qed.

Lemma remote_image_bypasses_canvas_witness :
  exists request,
    run (composeTryOnImage Demo.studio [Sample.top1] (Some male)) =
      (Returned (RemoteImage "data:image/png;base64,QUJD"), [EvGenerate request]).
Proof.
  eexists.
  exact (remote_image_bypasses_canvas Demo.studio [Sample.top1] (Some male) "key"
           [(mkInline "image/png" "iVBORw==", "top")]
           (mkResponse (Some [mkPart (Some "Here is the outfit.") None;
                              mkPart None (Some (mkInline "image/png" "QUJD"))]) None)
           "data:image/png;base64,QUJD"
           eq_refl ltac:(discriminate) eq_refl eq_refl eq_refl).
Defined.

Lemma skipn_nth_error_cons {A} (l : list A) : forall (i : nat) (a : A),
  nth_error l i = Some a -> skipn i l = a :: skipn (S i) l.
Proof.
  induction l as [|b l IH]; intros [|i] a H; cbn in *; try discriminate.
  - now injection H as ->.
  - now apply IH.
Qed.

Lemma layers_from_combine (cw ch : Z) (imgs : list HTMLImageElement)
    (gs : list GarmentInput) : forall i,
  layers_from cw ch imgs i gs =
    map (fun p => placed cw ch (type (fst p)) (snd p)) (combine gs (skipn i imgs)).
Proof.
  induction gs as [|g rest IH]; intros i; [reflexivity|].
  cbn [layers_from]. rewrite IH.
  destruct (nth_error imgs i) as [img|] eqn:Hi.
  - rewrite (skipn_nth_error_cons imgs i img Hi). reflexivity.
  - apply nth_error_None in Hi.
    rewrite (skipn_all2 imgs (n := S i)) by lia.
    rewrite (skipn_all2 imgs (n := i)) by exact Hi. cbn. now rewrite combine_nil.
Qed.

Lemma loaded_length (P : Platform) (gs : list GarmentInput) :
  (List.length (loaded P gs) <= List.length gs)%nat.
Proof.
  induction gs as [|g rest IH]; [apply Nat.le_refl|].
  unfold loaded in *. cbn [flat_map]. rewrite length_app. unfold decoded at 1.
  destruct (decode P (url g)) as [[w h]|]; cbn [List.length]; lia.
Qed.

Lemma combine_sources (gs : list GarmentInput) : forall (imgs : list HTMLImageElement),
  (List.length imgs <= List.length gs)%nat ->
  map (fun p : GarmentInput * HTMLImageElement => img_src (snd p)) (combine gs imgs)
    = map img_src imgs.
Proof.
  induction gs as [|g rest IH]; intros [|img imgs] Hlen; cbn in *; try reflexivity; try lia.
  rewrite IH by lia. reflexivity.
Qed.

(** X4. In a composed canvas the k-th garment layer shows the k-th image
    that decoded, drawn in the box of the k-th garment of the input: the
    images of the layers are exactly the decoded images, in input order
    (a garment that failed to decode is never drawn), there is one layer
    per decoded image, and the canvas is 400 x 600. *)
Theorem canvas_layers_pair_by_position (P : Platform) (gs : list GarmentInput)
    (gender : option Gender) (image : ComposedImage)
    (Hret : fst (run (composeTryOnImage P gs gender)) = Returned image) :
  (exists dataUrl, image = RemoteImage dataUrl) \/
  (image_size image = Some (400, 600)%Z /\
   garment_layers image = paired_layers P gs /\
   map fst (garment_layers image) = map img_src (loaded P gs) /\
   List.length (garment_layers image) = List.length (loaded P gs) /\
   loaded P gs <> []).
Proof.
  destruct (compose_outcome P gs gender) as (remote & _ & _ & _ & [[u H] | H]);
    rewrite H in Hret; cbn [fst] in Hret.
  - left. exists u. now injection Hret as <-.
  - right. unfold local_composition in Hret.
    destruct (model_context P); [|discriminate].
    destruct (loaded P gs) as [|img imgs] eqn:Hl; [discriminate|].
    destruct (compose_context P); [|discriminate].
    injection Hret as <-.
    assert (Hlayers : garment_layers
              (CanvasImage 400 600
                 (drawn (drawGarments P 400 600 (img :: imgs) 0 gs
                           (drawImage (ImageElement (model_image (gender_or_default gender)))
                              0 0 (ofZ 400) (ofZ 600) fresh_context))))
            = paired_layers P gs).
    { rewrite (garment_layers_drawGarments P _ _
                 (mkDraw (ImageElement (model_image (gender_or_default gender)))
                         0 0 (ofZ 400) (ofZ 600) 1 (shadow fresh_context) []))
        by reflexivity.
      rewrite layers_from_combine. unfold paired_layers. rewrite Hl. reflexivity. }
    rewrite Hlayers. unfold paired_layers.
    pose proof (loaded_length P gs) as Hle.
    repeat split.
    + rewrite map_map. cbn [placed fst]. rewrite <- Hl.
      apply combine_sources, Hle.
    + rewrite length_map, length_combine, <- Hl. lia.
    + discriminate.
Qed.

Lemma canvas_layers_pair_by_position_witness :
  map fst (garment_layers
             (CanvasImage 400 600
                (drawn (drawGarments Sample.offline 400 600 [Sample.shoes_image]
                          0 [Sample.broken_dress; Sample.shoes]
                          (drawImage (ImageElement (model_image female))
                             0 0 (ofZ 400) (ofZ 600) fresh_context)))))
    = [FromUrl "blob:shoes"].
Proof.
  destruct (canvas_layers_pair_by_position Sample.offline
              [Sample.broken_dress; Sample.shoes] (Some female) _ eq_refl)
    as [[u Hu] | (_ & _ & Hsrc & _)].
  - discriminate Hu.
  - exact Hsrc.
Defined.

Lemma loaded_nonempty (P : Platform) (gs : list GarmentInput) (g0 : GarmentInput) :
  In g0 gs -> decode P (url g0) <> None -> loaded P gs <> [].
Proof.
  induction gs as [|g rest IH]; intros Hin Hdec; [contradiction|].
  unfold loaded. cbn [flat_map]. destruct Hin as [-> | Hin].
  - unfold decoded at 1. destruct (decode P (url g0)) as [[w h]|]; [discriminate|congruence].
  - intros Happ. apply app_eq_nil in Happ as [_ Hrest]. now apply IH.
Qed.

Lemma loaded_none (P : Platform) (gs : list GarmentInput) :
  (forall g, In g gs -> decode P (url g) = None) -> loaded P gs = [].
Proof.
  induction gs as [|g rest IH]; intros Hfail; [reflexivity|].
  unfold loaded. cbn [flat_map]. unfold decoded at 1.
  rewrite (Hfail g (or_introl eq_refl)). apply IH.
  intros g' Hg'. apply Hfail. now right.
Qed.

(** X5. Where the 2D contexts are available, a composition returns an image
    as soon as one garment of the list decodes, with or without a
    credential and whatever the remote service does: the garments that fail
    to decode never make it fail. *)
Theorem one_decoded_garment_suffices (P : Platform) (gs : list GarmentInput)
    (gender : option Gender) (g0 : GarmentInput)
    (Hmodel : model_context P = true)
    (Hcanvas : compose_context P = true)
    (Hin : In g0 gs)
    (Hdecodes : decode P (url g0) <> None) :
  exists image, fst (run (composeTryOnImage P gs gender)) = Returned image.
Proof.
  destruct (compose_outcome P gs gender) as (remote & _ & _ & _ & [[u H] | H]);
    rewrite H; cbn [fst]; [eexists; reflexivity|].
  unfold local_composition. rewrite Hmodel, Hcanvas.
  pose proof (loaded_nonempty P gs g0 Hin Hdecodes) as Hne.
  destruct (loaded P gs); [contradiction|]. eexists. reflexivity.
Qed.

Lemma one_decoded_garment_suffices_witness :
  exists image,
    fst (run (composeTryOnImage Sample.offline
                [Sample.broken_dress; Sample.shoes; Sample.broken_dress] None))
      = Returned image.
Proof.
  apply (one_decoded_garment_suffices Sample.offline _ None Sample.shoes
           eq_refl eq_refl).
  - right. left. reflexivity.
  - discriminate.
Defined.

(** X6. When no garment of the list decodes and the remote service gave no
    image, the composition fails with "Failed to load any garment images",
    after the model has been rendered and the loading of every garment has
    been attempted, in input order. *)
Theorem no_garment_decodes (P : Platform) (gs : list GarmentInput)
    (gender : option Gender)
    (Hmodel : model_context P = true)
    (Hfail : forall g, In g gs -> decode P (url g) = None) :
  exists remote,
    Forall is_remote remote /\
    ((exists dataUrl,
        run (composeTryOnImage P gs gender) = (Returned (RemoteImage dataUrl), remote)) \/
     run (composeTryOnImage P gs gender) =
       (Threw "Failed to load any garment images",
        (remote ++ EvRenderModel (gender_or_default gender) :: load_events gs)%list)).
Proof.
  destruct (compose_outcome P gs gender) as (remote & Hrem & _ & _ & H).
  exists remote. split; [exact Hrem|].
  destruct H as [H | H]; [now left | right].
  rewrite H. unfold local_composition.
  rewrite Hmodel, (loaded_none P gs Hfail). reflexivity.
Qed.

Lemma no_garment_decodes_witness :
  exists remote,
    run (composeTryOnImage Sample.offline [Sample.broken_dress; Sample.broken_dress]
           (Some male)) =
      (Threw "Failed to load any garment images",
       (remote ++ [EvRenderModel male; EvLoadImage "blob:broken";
                   EvLoadImage "blob:broken"])%list).
Proof.
  destruct (no_garment_decodes Sample.offline
              [Sample.broken_dress; Sample.broken_dress] (Some male) eq_refl)
    as (remote & _ & [[u H] | H]).
  - intros g [<- | [<- | []]]; reflexivity.
  - cbv in H. discriminate H.
  - exists remote. exact H.
Defined.

(** ** The background stripper, continued *)

Lemma strip_alpha_byte (r g b a : Z) :
  is_byte a -> (0 <= strip_alpha r g b a <= a)%Z.
Proof.
  intros Ha. rewrite strip_alpha_classified.
  destruct (is_background r g b); [unfold is_byte in Ha; lia|].
  rewrite scaled_alpha_exact by exact Ha. unfold is_byte in Ha.
  assert ((99 * a + 50) / 100 < a + 1)%Z
    by (apply Z.div_lt_upper_bound; lia).
  assert (0 <= (99 * a + 50) / 100)%Z by (apply Z.div_pos; lia).
  lia.
Qed.

Lemma strip_loop_bytes (data : list Z) :
  Forall is_byte data -> Forall is_byte (strip_loop data).
Proof.
  remember (List.length data) as n eqn:Hn.
  revert data Hn. induction n as [n IH] using lt_wf_ind. intros data Hn Hb.
  destruct data as [|r [|g [|b [|a rest]]]]; try exact Hb.
  cbn [strip_loop].
  inversion Hb as [|? ? Hr Hb1]; subst. inversion Hb1 as [|? ? Hg Hb2]; subst.
  inversion Hb2 as [|? ? Hbb Hb3]; subst. inversion Hb3 as [|? ? Ha Hrest]; subst.
  constructor; [exact Hr|]. constructor; [exact Hg|]. constructor; [exact Hbb|].
  constructor.
  - pose proof (strip_alpha_byte r g b a Ha). unfold is_byte in *. lia.
  - apply (IH (List.length rest)); [cbn; lia | reflexivity | exact Hrest].
Qed.

(** X7. The stripper never makes a pixel more opaque (the new alpha is
    between 0 and the old one), its output is again a buffer of bytes, and
    stripping an already stripped buffer keeps exactly the same pixels fully
    transparent: a second pass only scales the remaining alphas again. *)
Theorem stripping_never_adds_opacity (data : list Z) (k : nat)
    (Hbytes : Forall is_byte data)
    (Hk : (4 * k + 3 < List.length data)%nat) :
  let once := strip_loop data in
  let twice := strip_loop once in
  Forall is_byte once /\
  (0 <= nth (4 * k + 3) once 0 <= nth (4 * k + 3) data 0)%Z /\
  (0 <= nth (4 * k + 3) twice 0 <= nth (4 * k + 3) once 0)%Z /\
  (nth (4 * k + 3) twice 0%Z = 0%Z <-> nth (4 * k + 3) once 0%Z = 0%Z).
Proof.
  intros once twice. subst once twice.
  pose proof (strip_loop_bytes data Hbytes) as Hb1.
  assert (Hk1 : (4 * k + 3 < List.length (strip_loop data))%nat)
    by (now rewrite strip_loop_length).
  destruct (strip_loop_pixel k data Hk) as (Hr & Hg & Hb & Ha).
  destruct (strip_loop_pixel k (strip_loop data) Hk1) as (_ & _ & _ & Ha2).
  rewrite Hr, Hg, Hb in Ha2.
  pose proof (nth_is_byte data (4 * k + 3) Hbytes) as HA.
  pose proof (nth_is_byte (strip_loop data) (4 * k + 3) Hb1) as HA1.
  split; [exact Hb1|]. split; [rewrite Ha; now apply strip_alpha_byte|].
  split; [rewrite Ha2; now apply strip_alpha_byte|].
  rewrite Ha2. rewrite !strip_alpha_classified in *.
  destruct (is_background _ _ _).
  - rewrite Ha. tauto.
  - split.
    + intros Hz. destruct (Z.eq_dec (nth (4 * k + 3) (strip_loop data) 0%Z) 0) as [|Hne];
        [assumption|].
      assert (0 < scaled_alpha (nth (4 * k + 3) (strip_loop data) 0%Z))%Z
        by (apply scaled_alpha_pos; [exact HA1 | unfold is_byte in HA1; lia]).
      lia.
    + intros ->. reflexivity.
Qed.

Lemma stripping_never_adds_opacity_witness :
  (0 <= nth 7 (strip_loop [255; 255; 255; 255; 200; 10; 0; 128]%Z) 0 <= 128)%Z.
Proof.
  assert (Hb : Forall is_byte [255; 255; 255; 255; 200; 10; 0; 128]%Z)
    by (repeat constructor; unfold is_byte; lia).
  destruct (stripping_never_adds_opacity _ 1 Hb) as (_ & H & _).
  - cbn. lia.
  - exact H.
Defined.

(** ** Clamping and validation of an estimated box *)

Lemma SFcompare_refl_not_nan (f : spec_float) :
  f <> S754_nan -> SFcompare f f = Some Eq.
Proof.
  destruct f as [s | s | | s m e]; intros Hf; try contradiction; cbn.
  - reflexivity.
  - destruct s; reflexivity.
  - rewrite Z.compare_refl, Pos.compare_cont_refl. destruct s; reflexivity.
Qed.

Lemma ltb_not_nan (a b : num) :
  PrimFloat.ltb a b = true -> PrimFloat.is_nan a = false /\ PrimFloat.is_nan b = false.
Proof.
  intros H. unfold PrimFloat.is_nan. rewrite !FloatAxioms.eqb_spec.
  rewrite FloatAxioms.ltb_spec in H. unfold SFeqb, SFltb in *.
  assert (Ha : Prim2SF a <> S754_nan) by (intros E; rewrite E in H; discriminate H).
  assert (Hb : Prim2SF b <> S754_nan)
    by (intros E; rewrite E in H; destruct (Prim2SF a); discriminate H).
  now rewrite !SFcompare_refl_not_nan.
Qed.

Lemma ltb_asym (a b : num) : PrimFloat.ltb a b = true -> PrimFloat.ltb b a = false.
Proof.
  rewrite !FloatAxioms.ltb_spec. unfold SFltb.
  destruct (Prim2SF a) as [s1 | s1 | | s1 m1 e1], (Prim2SF b) as [s2 | s2 | | s2 m2 e2];
    cbn; try congruence;
    try (destruct s1; congruence); try (destruct s2; congruence);
    try (destruct s1, s2; congruence).
  assert (Hp : Pos.compare_cont Eq m2 m1 = CompOpp (Pos.compare_cont Eq m1 m2))
    by (rewrite Pos.compare_cont_antisym; reflexivity).
  rewrite (Z.compare_antisym e1 e2), Hp.
  destruct s1, s2; try congruence;
    destruct (e1 ?= e2)%Z; cbn; try congruence;
    destruct (Pos.compare_cont Eq m1 m2); cbn; congruence.
Qed.

Lemma below_zero_below_one (n : num) :
  PrimFloat.ltb n 0 = true -> PrimFloat.ltb n 1 = true.
Proof.
  rewrite !FloatAxioms.ltb_spec. unfold SFltb.
  set (zero := Prim2SF 0). set (one := Prim2SF 1).
  vm_compute in zero, one. subst zero one.
  destruct (Prim2SF n) as [s | s | | s m e];
    cbv beta iota delta [SFcompare]; try congruence;
    destruct s; cbv beta iota; congruence.
Qed.

Lemma SFcompare_antisym (f g : spec_float) :
  SFcompare g f = option_map CompOpp (SFcompare f g).
Proof.
  destruct f as [s1 | s1 | | s1 m1 e1], g as [s2 | s2 | | s2 m2 e2];
    cbn; try reflexivity;
    try (destruct s1; reflexivity); try (destruct s2; reflexivity);
    try (destruct s1, s2; reflexivity).
  assert (Hp : Pos.compare_cont Eq m1 m2 = CompOpp (Pos.compare_cont Eq m2 m1))
    by (rewrite Pos.compare_cont_antisym; reflexivity).
  rewrite (Z.compare_antisym e2 e1), Hp.
  destruct s1, s2; try reflexivity;
    destruct (e2 ?= e1)%Z; cbn; try reflexivity;
    destruct (Pos.compare_cont Eq m2 m1); reflexivity.
Qed.

Lemma leb_cases (a b : num) :
  PrimFloat.leb a b = true -> PrimFloat.ltb a b = true \/ PrimFloat.eqb a b = true.
Proof.
  rewrite FloatAxioms.leb_spec, FloatAxioms.ltb_spec, FloatAxioms.eqb_spec.
  unfold SFleb, SFltb, SFeqb.
  destruct (SFcompare (Prim2SF a) (Prim2SF b)) as [[ | | ]|]; auto.
Qed.

(** Two numbers that compare equal are not NaN and neither is below the
    other; the comparison is symmetric. *)
Lemma eqb_facts (a b : num) :
  PrimFloat.eqb a b = true ->
  PrimFloat.eqb b a = true /\
  PrimFloat.ltb a b = false /\ PrimFloat.ltb b a = false /\
  PrimFloat.is_nan a = false /\ PrimFloat.is_nan b = false.
Proof.
  intros H. unfold PrimFloat.is_nan.
  rewrite !FloatAxioms.eqb_spec, !FloatAxioms.ltb_spec in *. unfold SFeqb, SFltb in *.
  assert (Ha : Prim2SF a <> S754_nan) by (intros E; rewrite E in H; discriminate H).
  assert (Hb : Prim2SF b <> S754_nan)
    by (intros E; rewrite E in H; destruct (Prim2SF a); discriminate H).
  rewrite !SFcompare_refl_not_nan by assumption.
  rewrite (SFcompare_antisym (Prim2SF a) (Prim2SF b)).
  destruct (SFcompare (Prim2SF a) (Prim2SF b)) as [[ | | ]|]; try discriminate H.
  repeat split.
Qed.

Lemma eqb_refl_not_nan (n : num) : PrimFloat.is_nan n = false -> PrimFloat.eqb n n = true.
Proof. unfold PrimFloat.is_nan. now destruct (PrimFloat.eqb n n). Qed.

(** X8. [clamp01] is a clamp onto [0,1]: whatever it is given (a missing
    property, a string, NaN, any number) its result lies in [0,1]; a number
    strictly between 0 and 1 is returned as it is, and every number from 0
    to 1, the bounds included, gives a result equal to it ([-0] giving a
    zero); a number above 1 gives 1, a number below 0 gives 0, NaN gives 0
    and everything that is not a number gives 0. *)
Theorem clamp01_clamps :
  (forall v, ge (clamp01 v) 0 && le (clamp01 v) 1 = true) /\
  (forall n, gt n 0 = true -> lt n 1 = true -> clamp01 (Some (JNum n)) = n) /\
  (forall n, ge n 0 = true -> le n 1 = true ->
     PrimFloat.eqb (clamp01 (Some (JNum n))) n = true) /\
  (forall n, gt n 1 = true -> clamp01 (Some (JNum n)) = 1) /\
  (forall n, lt n 0 = true -> clamp01 (Some (JNum n)) = 0) /\
  (forall n, PrimFloat.is_nan n = true -> clamp01 (Some (JNum n)) = 0) /\
  (forall v, (forall n, v <> Some (JNum n)) -> clamp01 v = 0).
Proof.
  assert (Hmid : forall n, PrimFloat.ltb 0 n = true -> PrimFloat.ltb n 1 = true ->
                           clamp01 (Some (JNum n)) = n).
  { intros n H0 H1. unfold clamp01, Math_max, Math_min.
    destruct (ltb_not_nan _ _ H0) as [_ Hn]. rewrite Hn.
    change (PrimFloat.is_nan 1) with false. change (PrimFloat.is_nan 0) with false.
    cbn [orb]. rewrite (ltb_asym _ _ H1), H1. rewrite Hn, H0. reflexivity. }
  assert (Hhigh : forall n, PrimFloat.ltb 1 n = true -> clamp01 (Some (JNum n)) = 1).
  { intros n H1. unfold clamp01, Math_max, Math_min.
    destruct (ltb_not_nan _ _ H1) as [_ Hn]. rewrite Hn.
    change (PrimFloat.is_nan 1) with false. cbn [orb]. rewrite H1. reflexivity. }
  assert (Hlow : forall n, PrimFloat.ltb n 0 = true -> clamp01 (Some (JNum n)) = 0).
  { intros n H0. unfold clamp01, Math_max, Math_min.
    destruct (ltb_not_nan _ _ H0) as [Hn _]. rewrite Hn.
    change (PrimFloat.is_nan 1) with false. change (PrimFloat.is_nan 0) with false.
    cbn [orb]. pose proof (below_zero_below_one n H0) as H1.
    rewrite (ltb_asym _ _ H1), H1, Hn, (ltb_asym _ _ H0), H0. reflexivity. }
  assert (Hone : forall n, PrimFloat.eqb n 1 = true -> clamp01 (Some (JNum n)) = 1).
  { intros n H1. destruct (eqb_facts _ _ H1) as (_ & Hlt & Hgt & Hn & _).
    unfold clamp01, Math_max, Math_min. rewrite Hn.
    change (PrimFloat.is_nan 1) with false. cbn [orb]. rewrite Hgt, Hlt. reflexivity. }
  assert (Hzero : forall n, PrimFloat.eqb 0 n = true -> clamp01 (Some (JNum n)) = 0).
  { intros n H0. destruct (eqb_facts _ _ H0) as (Hsym & Hlt & Hgt & _ & Hn).
    assert (H1 : PrimFloat.ltb n 1 = true).
    { revert Hsym. rewrite FloatAxioms.eqb_spec, FloatAxioms.ltb_spec.
      unfold SFeqb, SFltb.
      set (zero := Prim2SF 0). set (one := Prim2SF 1).
      vm_compute in zero, one. subst zero one.
      destruct (Prim2SF n) as [s | s | | s m e];
        cbv beta iota delta [SFcompare]; try congruence;
        destruct s; cbv beta iota; congruence. }
    unfold clamp01, Math_max, Math_min. rewrite Hn.
    change (PrimFloat.is_nan 1) with false. change (PrimFloat.is_nan 0) with false.
    cbn [orb]. rewrite (ltb_asym _ _ H1), H1, Hn, Hlt, Hgt. reflexivity. }
  split; [|split; [|split; [|split; [|split; [|split]]]]].
  - intros v. destruct v as [[ | b | n | s | l | f]|]; try reflexivity.
    unfold ge, le.
    destruct (PrimFloat.is_nan n) eqn:Hn; [unfold clamp01; rewrite Hn; reflexivity|].
    destruct (PrimFloat.ltb 1 n) eqn:H1; [rewrite Hhigh by exact H1; reflexivity|].
    destruct (PrimFloat.ltb n 1) eqn:H2.
    + destruct (PrimFloat.ltb 0 n) eqn:H0.
      * rewrite Hmid by assumption. now rewrite (ltb_leb _ _ H0), (ltb_leb _ _ H2).
      * unfold clamp01, Math_max, Math_min. rewrite Hn.
        change (PrimFloat.is_nan 1) with false. change (PrimFloat.is_nan 0) with false.
        cbn [orb]. rewrite H1, H2, Hn, H0.
        destruct (PrimFloat.ltb n 0); reflexivity.
    + unfold clamp01, Math_max, Math_min. rewrite Hn.
      change (PrimFloat.is_nan 1) with false. cbn [orb]. rewrite H1, H2. reflexivity.
  - intros n H0 H1. now apply Hmid.
  - unfold ge, le. intros n H0 H1.
    destruct (leb_cases _ _ H1) as [Hlt1 | Heq1].
    + destruct (leb_cases _ _ H0) as [Hlt0 | Heq0].
      * rewrite Hmid by assumption.
        apply eqb_refl_not_nan. now destruct (ltb_not_nan _ _ Hlt0).
      * now rewrite Hzero.
    + rewrite Hone by exact Heq1. now destruct (eqb_facts _ _ Heq1).
  - intros n H1. now apply Hhigh.
  - intros n H0. now apply Hlow.
  - intros n Hn. unfold clamp01. now rewrite Hn.
  - intros v Hv. destruct v as [[ | b | n | s | l | f]|]; try reflexivity.
    now contradiction (Hv n).
Qed.

Lemma clamp01_clamps_witness :
  clamp01 (Some (JNum 0.4)) = 0.4 /\ clamp01 (Some (JNum 7)) = 1 /\
  clamp01 (Some (JNum (-3))) = 0 /\ clamp01 (Some (JNum PrimFloat.nan)) = 0 /\
  PrimFloat.eqb (clamp01 (Some (JNum PrimFloat.neg_zero))) PrimFloat.neg_zero = true /\
  clamp01 (Some (JStr "0.5")) = 0.
Proof.
  destruct clamp01_clamps as (_ & Hmid & Hclosed & Hhigh & Hlow & Hnan & Hother).
  split; [|split; [|split; [|split; [|split]]]].
  - apply Hmid; reflexivity.
  - apply Hhigh; reflexivity.
  - apply Hlow; reflexivity.
  - apply Hnan; reflexivity.
  - apply Hclosed; reflexivity.
  - apply Hother. discriminate.
Defined.

Lemma estimate_run (P : Platform) (garmentFile : File) (garmentType : string)
    (apiKey : option string) :
  run (estimateGarmentPlacement P garmentFile garmentType apiKey) =
    match effective_key P apiKey with
    | None => (Threw "Missing Google AI API key. Set VITE_GOOGLE_AI_API_KEY.", [])
    | Some key =>
        match file_bytes garmentFile with
        | None => (Threw "arrayBuffer rejected", [])
        | Some bytes =>
            let request := placement_request key garmentType (payload P garmentFile bytes) in
            match generateContent P request with
            | Threw e => (Threw e, [EvGenerate request])
            | Returned resp =>
                match response_text resp with
                | None => (Threw "response.text() failed", [EvGenerate request])
                | Some txt =>
                    (Returned match accepted_box P txt with
                              | Some b => b
                              | None => getDefaultBox garmentType
                              end, [EvGenerate request])
                end
            end
        end
    end.
Proof.
  unfold run, estimateGarmentPlacement. cbv zeta.
  change (truthy_string match truthy_string apiKey with
                        | Some k => Some k
                        | None => env_api_key P
                        end) with (effective_key P apiKey).
  destruct (effective_key P apiKey) as [key|]; [|reflexivity].
  unfold bind at 1. unfold fileToBase64.
  destruct (file_bytes garmentFile) as [bytes|]; [|reflexivity].
  fold (payload P garmentFile bytes). unfold ret at 1.
  unfold bind at 1. unfold generate, bind at 1, emit, lift.
  destruct (generateContent P _) as [resp|e]; [|reflexivity].
  unfold bind at 1.
  destruct (response_text resp) as [txt|]; [|reflexivity].
  unfold ret at 1, try_catch, parsePlacement, accepted_box, bind, ret, lift, throw.
  destruct (JSON_parse P (stripCodeFences txt)) as [json|]; [|reflexivity].
  destruct (clampedBox json) as [b|]; [|reflexivity].
  destruct (isValidBox b); reflexivity.
Qed.

(** X9. The estimate throws only for what lies outside its [try] block: a
    missing key (nothing is read or sent), a file that cannot be read
    (nothing is sent), a request that fails, or a response whose text cannot
    be read (one request sent); the content of a response never makes it
    throw. *)
Theorem estimate_throws_only_outside_try (P : Platform) (garmentFile : File)
    (garmentType : string) (apiKey : option string) (message : string)
    (Hthrew : fst (run (estimateGarmentPlacement P garmentFile garmentType apiKey))
              = Threw message) :
  let trace := snd (run (estimateGarmentPlacement P garmentFile garmentType apiKey)) in
  (effective_key P apiKey = None /\ trace = [] /\
   message = "Missing Google AI API key. Set VITE_GOOGLE_AI_API_KEY.") \/
  (effective_key P apiKey <> None /\ file_bytes garmentFile = None /\ trace = []) \/
  (exists key bytes,
     effective_key P apiKey = Some key /\ file_bytes garmentFile = Some bytes /\
     let request := placement_request key garmentType (payload P garmentFile bytes) in
     trace = [EvGenerate request] /\
     (generateContent P request = Threw message \/
      exists resp, generateContent P request = Returned resp /\
                   response_text resp = None)).
Proof.
  intros trace. subst trace. revert Hthrew. rewrite estimate_run.
  destruct (effective_key P apiKey) as [key|].
  - destruct (file_bytes garmentFile) as [bytes|].
    + cbv zeta.
      destruct (generateContent P _) as [resp|e] eqn:Hresp.
      * destruct (response_text resp) as [txt|] eqn:Htxt; cbn [fst snd];
          [discriminate|].
        intros _. right. right. exists key, bytes.
        split; [reflexivity|]. split; [reflexivity|].
        split; [reflexivity|]. right. exists resp. split; [exact Hresp | exact Htxt].
      * cbn [fst snd]. intros [= <-]. right. right. exists key, bytes.
        split; [reflexivity|]. split; [reflexivity|].
        split; [reflexivity|]. left. exact Hresp.
    + cbn [fst snd]. intros _. right. left.
      split; [discriminate|]. split; reflexivity.
  - cbn [fst snd]. intros [= <-]. left. repeat split.
Qed.

Lemma estimate_throws_only_outside_try_witness :
  effective_key Sample.offline None = None /\
  snd (run (estimateGarmentPlacement Sample.offline Sample.png "dress" None)) = [].
Proof.
  destruct (estimate_throws_only_outside_try Sample.offline Sample.png "dress" None
              "Missing Google AI API key. Set VITE_GOOGLE_AI_API_KEY." eq_refl)
    as [(Hk & Ht & _) | [(Hk & _) | (key & bytes & Hk & _)]].
  - split; [exact Hk | exact Ht].
  - now contradiction Hk.
  - discriminate Hk.
Defined.

(** ** Code fences *)

Lemma match_fence_here_other (c : ascii) (s : string) :
  Ascii.eqb c "`" = false -> match_fence_here (String c s) = None.
Proof.
  intros Hc. unfold match_fence_here.
  destruct c as [[] [] [] [] [] [] [] []]; try reflexivity; discriminate Hc.
Qed.

Lemma match_fence_no_backtick (s : string) :
  no_backtick s = true -> match_fence s = None.
Proof.
  induction s as [|c s IH]; intros H; [reflexivity|].
  cbn [no_backtick] in H. apply andb_prop in H as [Hc Hs].
  apply negb_true_iff in Hc.
  cbn [match_fence]. rewrite (match_fence_here_other c s Hc). now apply IH.
Qed.

Lemma skip_letters_stops (lang rest : string) :
  all_letters lang = true ->
  skip_letters (lang ++ String "010" rest) = String "010" rest.
Proof.
  induction lang as [|c lang IH]; intros H; [reflexivity|].
  cbn [all_letters] in H. apply andb_prop in H as [Hc Hl].
  cbn [append skip_letters]. rewrite Hc. now apply IH.
Qed.

Lemma until_fence_finds (body rest : string) :
  no_backtick body = true ->
  until_fence (body ++ "```" ++ rest) = Some body.
Proof.
  induction body as [|c body IH]; intros H; [destruct rest; reflexivity|].
  cbn [no_backtick] in H. apply andb_prop in H as [Hc Hb].
  apply negb_true_iff in Hc.
  assert (Hp : forall s, String.prefix "```" (String c s) = false).
  { intros s. destruct c as [[] [] [] [] [] [] [] []]; try reflexivity; discriminate Hc. }
  change ((String c body) ++ "```" ++ rest) with (String c (body ++ "```" ++ rest)).
  cbn [until_fence]. rewrite Hp, (IH Hb). reflexivity.
Qed.

Lemma match_fence_here_fenced (lang body rest : string) :
  all_letters lang = true -> no_backtick body = true ->
  match_fence_here (String "`" (String "`" (String "`"
                      (lang ++ String "010" (body ++ "```" ++ rest))))) = Some body.
Proof.
  intros Hl Hb. unfold match_fence_here.
  rewrite (skip_letters_stops lang _ Hl). now apply until_fence_finds.
Qed.

Lemma match_fence_skips (before s : string) (found : option string) :
  no_backtick before = true ->
  match_fence s = found -> match_fence (before ++ s) = found.
Proof.
  induction before as [|c before IH]; intros Hb Hs; [exact Hs|].
  cbn [no_backtick] in Hb. apply andb_prop in Hb as [Hc Hb'].
  apply negb_true_iff in Hc.
  change (String c before ++ s) with (String c (before ++ s)).
  cbn [match_fence]. rewrite (match_fence_here_other c _ Hc). now apply IH.
Qed.

(** X10. [stripCodeFences] leaves a text without backticks as it is, and
    from a text that holds a fenced block -- an opening fence, an optional
    language tag made of letters, a newline, a body without backticks and a
    closing fence, with anything after it and backtick-free text before
    it -- it returns exactly the body. *)
Theorem stripCodeFences_unwraps :
  (forall txt, no_backtick txt = true -> stripCodeFences txt = txt) /\
  (forall before lang body rest,
     no_backtick before = true -> all_letters lang = true ->
     no_backtick body = true ->
     stripCodeFences
       (before ++ String "`" (String "`" (String "`"
                    (lang ++ String "010" (body ++ "```" ++ rest)))))
       = body).
Proof.
  split.
  - intros txt H. unfold stripCodeFences. now rewrite match_fence_no_backtick.
  - intros before lang body rest Hb Hl Hbody. unfold stripCodeFences.
    rewrite (match_fence_skips before _ (Some body) Hb); [reflexivity|].
    cbn [match_fence]. now rewrite (match_fence_here_fenced lang body rest Hl Hbody).
Qed.

Lemma stripCodeFences_unwraps_witness :
  stripCodeFences ("Here you go: " ++ "```json" ++ String "010" "{}``` bye")
    = "{}".
Proof.
  destruct stripCodeFences_unwraps as [_ H].
  exact (H "Here you go: " "json" "{}" " bye" eq_refl eq_refl eq_refl).
Defined.

(** ** What the adapter returns *)

(** X11. A data URL obtained from a response is built from the first part
    of the response whose inline data has an "image/" MIME type: that part
    has non-empty data, and the URL is "data:", the MIME type, ";base64,"
    and the data.  (A first image part with empty data gives nothing, even
    if a later part holds an image.) *)
Theorem image_comes_from_first_image_part (r : GenResponse) (dataUrl : string)
    (Hsome : image_of_response r = Some dataUrl) :
  exists parts p d,
    candidate_parts r = Some parts /\
    find is_image_part parts = Some p /\ In p parts /\
    inlineData p = Some d /\
    String.prefix "image/" (mimeType d) = true /\
    data d <> "" /\
    dataUrl = "data:" ++ mimeType d ++ ";base64," ++ data d.
Proof.
  unfold image_of_response in Hsome.
  destruct (candidate_parts r) as [parts|] eqn:Hparts; [|discriminate].
  destruct (find is_image_part parts) as [[txt [d|]]|] eqn:Hfind; try discriminate.
  destruct (find_some _ _ Hfind) as [Hin Himg].
  unfold is_image_part in Himg. cbn in Himg.
  exists parts, (mkPart txt (Some d)), d.
  destruct (data d) eqn:Hdata; [discriminate|].
  injection Hsome as <-. repeat split; auto. discriminate.
Qed.

Lemma image_comes_from_first_image_part_witness :
  exists d, String.prefix "image/" (mimeType d) = true /\
            "data:image/png;base64,QUJD" = "data:" ++ mimeType d ++ ";base64," ++ data d.
Proof.
  destruct (image_comes_from_first_image_part
              (mkResponse (Some [mkPart (Some "Here is the outfit.") None;
                                 mkPart None (Some (mkInline "image/png" "QUJD"))]) None)
              "data:image/png;base64,QUJD" eq_refl)
    as (parts & p & d & _ & _ & _ & _ & Hmime & _ & Hurl).
  exists d. split; [exact Hmime | exact Hurl].
Defined.

(** ** The model renderer: shadows *)

(** X12. For every gender, none of the 19 shapes of the model is filled
    under a visible shadow: each [fill] and [fillRect] is made while the
    shadow colour is
    the initial transparent black or "transparent", and the body shadow
    (rgba(0,0,0,0.08), blur 6, offset (1,3)) is set by the last call, after
    which nothing is drawn. *)
Theorem model_shapes_cast_no_shadow (gender : Gender) :
  Forall (fun color => color = "rgba(0, 0, 0, 0)" \/ color = "transparent")
         (fill_shadows "rgba(0, 0, 0, 0)" (Model.commands gender)) /\
  (exists drawing,
     Model.commands gender = (drawing ++ [SetShadow "rgba(0, 0, 0, 0.08)" 6 1 3])%list) /\
  List.length (fill_shadows "rgba(0, 0, 0, 0)" (Model.commands gender)) = 19%nat.
Proof.
  split; [|split].
  - destruct gender; cbv [Model.commands Model.background Model.floor_shadow
      Model.head Model.hair Model.face Model.neck Model.shoulders Model.torso
      Model.limbs Model.polygon Model.shoulder_vertices Model.torso_vertices
      Model.full_ellipse app map fill_shadows];
      repeat (constructor; [tauto|]); constructor.
  - unfold Model.commands. eexists. rewrite !app_assoc. reflexivity.
  - destruct gender; reflexivity.
Qed.

(** ** The try-on page *)

Local Close Scope float_scope.

Lemma toggled_involutive (id : string) (g : Garment) :
  toggled id (toggled id g) = g.
Proof.
  unfold toggled. destruct (has_id id g) eqn:H.
  - unfold has_id in *. cbn [g_id]. rewrite H. destruct g; cbn.
    now rewrite negb_involutive.
  - now rewrite H.
Qed.

Lemma toggled_keeps_id (id : string) (g : Garment) : g_id (toggled id g) = g_id g.
Proof. unfold toggled. destruct (has_id id g); reflexivity. Qed.

(** X13. Toggling a garment twice gives back the collection as it was; one
    toggle keeps the garments, their order and their identifiers, leaves
    every garment with another identifier untouched, flips the active flag
    of those with that identifier and nothing else of them, and clears the
    generated image. *)
Theorem toggle_twice_restores (s : PageState) (id : string) :
  let s1 := fst (handleGarmentToggle s id s) in
  let s2 := fst (handleGarmentToggle s1 id s1) in
  garments s2 = garments s /\
  map g_id (garments s1) = map g_id (garments s) /\
  (forall g, In g (garments s) -> g_id g <> id -> In g (garments s1)) /\
  (forall g, In g (garments s) -> g_id g = id ->
     In (mkItem (g_id g) (g_name g) (g_type g) (g_imageUrl g) (g_file g)
                (negb (g_isActive g))) (garments s1)) /\
  aiImage s1 = None.
Proof.
  cbn. repeat split.
  - rewrite map_map. rewrite <- (map_id (garments s)) at 2.
    apply map_ext. apply toggled_involutive.
  - rewrite map_map. apply map_ext. apply toggled_keeps_id.
  - intros g Hin Hid. apply in_map_iff. exists g. split; [|exact Hin].
    unfold toggled, has_id. apply String.eqb_neq in Hid. now rewrite Hid.
  - intros g Hin Hid. apply in_map_iff. exists g. split; [|exact Hin].
    unfold toggled, has_id. apply String.eqb_eq in Hid. now rewrite Hid.
Qed.

Lemma find_filter_none (id : string) (gs : list Garment) :
  find (has_id id) (filter (fun g => negb (has_id id g)) gs) = None.
Proof.
  induction gs as [|g rest IH]; [reflexivity|].
  cbn [filter]. destruct (has_id id g) eqn:H; cbn [negb]; [exact IH|].
  cbn [find]. now rewrite H.
Qed.

Lemma cleanup_revokes (gs : list Garment) (e : PageEffect) :
  In e (cleanup gs) <-> exists g, In g gs /\ e = RevokeObjectURL (g_imageUrl g).
Proof.
  unfold cleanup. rewrite in_map_iff. split; intros (g & H1 & H2); exists g; auto.
Qed.

Lemma cleanup_count (gs : list Garment) :
  List.length (filter is_revocation (cleanup gs)) = List.length gs.
Proof.
  unfold cleanup. induction gs as [|g rest IH]; cbn; [reflexivity | now f_equal].
Qed.

(** X14. Removing a garment by identifier leaves exactly the garments with
    another identifier.  When a garment has the identifier, the removal
    revokes the object URL of every garment of the collection as it was,
    those that remain included: once by the handler for the garment found,
    and once for each garment by the cleanup of the effect that depends on
    the collection, which the update triggers.  Only URLs of the collection
    are revoked.  Removing the same identifier again, or an identifier no
    garment has, changes nothing and revokes nothing. *)
Theorem remove_garment_by_id (s : PageState) (id : string) :
  let s1 := fst (removeGarment s id) in
  let effects := snd (removeGarment s id) in
  (forall g, In g (garments s1) <-> In g (garments s) /\ g_id g <> id) /\
  (forall url, In (RevokeObjectURL url) effects ->
     exists g, In g (garments s) /\ g_imageUrl g = url) /\
  ((exists g, In g (garments s) /\ g_id g = id) ->
     (forall g, In g (garments s) -> In (RevokeObjectURL (g_imageUrl g)) effects) /\
     (forall g, In g (garments s1) -> In (RevokeObjectURL (g_imageUrl g)) effects) /\
     List.length (filter is_revocation effects) = S (List.length (garments s))) /\
  removeGarment s1 id = (s1, []) /\
  ((forall g, In g (garments s) -> g_id g <> id) -> s1 = s /\ effects = []).
Proof.
  unfold removeGarment, handleGarmentRemove.
  destruct (find (has_id id) (garments s)) as [garment|] eqn:Hfind; cbn.
  - apply find_some in Hfind as [Hin Hid]. unfold has_id in Hid.
    apply String.eqb_eq in Hid.
    assert (Hall : forall g, In g (garments s) ->
              RevokeObjectURL (g_imageUrl garment) = RevokeObjectURL (g_imageUrl g) \/
              ToastSuccess (MsgRemoved (g_name garment)) = RevokeObjectURL (g_imageUrl g) \/
              In (RevokeObjectURL (g_imageUrl g)) (cleanup (garments s))).
    { intros g Hg. right. right. apply cleanup_revokes. now exists g. }
    split; [|split; [|split; [|split]]].
    + intros g. rewrite filter_In. unfold has_id. rewrite negb_true_iff.
      now rewrite String.eqb_neq.
    + intros url [[= <-] | [H | H]]; [now exists garment | discriminate H |].
      apply cleanup_revokes in H as (g & Hg & [= ->]). now exists g.
    + intros _. split; [exact Hall|]. split.
      * intros g Hg. apply filter_In in Hg as [Hg _]. now apply Hall.
      * now rewrite cleanup_count.
    + now rewrite find_filter_none.
    + intros Hnone. now contradiction (Hnone garment Hin).
  - split; [|split; [|split; [|split]]].
    + intros g. split; [|tauto]. intros Hin. split; [exact Hin|].
      intros Hid. apply (find_none _ _ Hfind) in Hin. unfold has_id in Hin.
      apply String.eqb_neq in Hin. contradiction.
    + intros url [].
    + intros (g & Hin & Hid). apply (find_none _ _ Hfind) in Hin. unfold has_id in Hin.
      apply String.eqb_neq in Hin. contradiction.
    + now rewrite Hfind.
    + auto.
Qed.

Lemma remove_garment_by_id_witness :
  map g_id (garments (fst (removeGarment Demo.wardrobe "a"))) = ["b"; "c"] /\
  In (RevokeObjectURL "blob:pants") (snd (removeGarment Demo.wardrobe "a")) /\
  List.length (filter is_revocation (snd (removeGarment Demo.wardrobe "a"))) = 4%nat.
Proof.
  destruct (remove_garment_by_id Demo.wardrobe "a") as (_ & _ & Hfound & _).
  destruct Hfound as (_ & Hrest & Hcount).
  - exists (mkItem "a" "Tshirt 1" "tshirt" "blob:top" Sample.png true).
    split; [left; reflexivity | reflexivity].
  - split; [reflexivity|]. split; [|exact Hcount].
    apply (Hrest (mkItem "b" "Pants 1" "pants" "blob:pants" Sample.png false)).
    left. reflexivity.
Defined.

(** X15. An upload appends one active garment, named by its capitalised type
    and one more than the number of garments of that type already there,
    leaves the garments already there as they are, clears the generated
    image, and adds exactly this garment, last, to what the next
    composition receives. *)
Theorem upload_extends_the_outfit (s : PageState) (f : File)
    (type id objectUrl : string) :
  let s1 := fst (handleGarmentUpload s f type id objectUrl s) in
  let count := List.length (filter (fun g => String.eqb (g_type g) type) (garments s)) in
  let added := mkItem id (capitalize type ++ " " ++ decimal (count + 1))
                      type objectUrl f true in
  garments s1 = (garments s ++ [added])%list /\
  map composition_input (activeGarments s1) =
    (map composition_input (activeGarments s) ++ [mkGarment objectUrl type f])%list /\
  List.length (filter (fun g => String.eqb (g_type g) type) (garments s1))
    = (count + 1)%nat /\
  aiImage s1 = None /\ selectedGarmentType s1 = None.
Proof.
  cbn. repeat split.
  - unfold activeGarments. cbn. rewrite filter_app, map_app. reflexivity.
  - rewrite filter_app, length_app. cbn. now rewrite String.eqb_refl.
Qed.

Lemma compose_image_truthy (P : Platform) (gs : list GarmentInput)
    (gender : option Gender) (image : ComposedImage) :
  fst (run (composeTryOnImage P gs gender)) = Returned image ->
  truthy_image image = true.
Proof.
  rewrite compose_two_phases. unfold run, bind, adapterPhase.
  destruct (truthy_string (env_api_key P)) as [apiKey|].
  - destruct (0 <? List.length gs)%nat.
    + unfold try_catch.
      pose proof (generateAITryOn_image P gs apiKey (gender_or_default gender) []) as Himg.
      destruct (generateAITryOn_absorbed P gs apiKey (gender_or_default gender) [])
        as (r & new & Hrun & _).
      rewrite Hrun in *. cbn [fst] in Himg. destruct r as [dataUrl|].
      * cbn. intros [= <-]. specialize (Himg dataUrl eq_refl).
        destruct dataUrl; [contradiction | reflexivity].
      * rewrite composeLocally_run. cbn [fst]. unfold local_composition.
        destruct (model_context P); [|discriminate].
        destruct (loaded P gs); [discriminate|].
        destruct (compose_context P); [|discriminate]. now intros [= <-].
    + cbn [ret]. rewrite composeLocally_run. cbn [fst]. unfold local_composition.
      destruct (model_context P); [|discriminate].
      destruct (loaded P gs); [discriminate|].
      destruct (compose_context P); [|discriminate]. now intros [= <-].
  - cbn [ret]. rewrite composeLocally_run. cbn [fst]. unfold local_composition.
    destruct (model_context P); [|discriminate].
    destruct (loaded P gs); [discriminate|].
    destruct (compose_context P); [|discriminate]. now intros [= <-].
Qed.

Lemma compose_errors (P : Platform) (gs : list GarmentInput)
    (gender : option Gender) (message : string) :
  fst (run (composeTryOnImage P gs gender)) = Threw message ->
  message = "Failed to load any garment images" \/ message = "Canvas not supported".
Proof.
  intros Hthrew.
  destruct (compose_outcome P gs gender) as (remote & _ & _ & _ & [[u H] | H]);
    rewrite H in Hthrew; cbn [fst] in Hthrew; [discriminate|].
  unfold local_composition in Hthrew.
  destruct (model_context P); [|injection Hthrew as <-; now right].
  destruct (loaded P gs); [injection Hthrew as <-; now left|].
  destruct (compose_context P); [discriminate | injection Hthrew as <-; now right].
Qed.

Lemma filter_nothing {A} (f : A -> bool) (l : list A) :
  (forall a, In a l -> f a = false) -> filter f l = [].
Proof.
  induction l as [|a l IH]; intros H; [reflexivity|].
  cbn [filter]. rewrite (H a (or_introl eq_refl)). apply IH.
  intros b Hb. apply H. now right.
Qed.

(** What [handleAIProcess] does once its three checks have passed. *)
Lemma handleAIProcess_run (P : Platform) (s : PageState) :
  activeGarments s <> [] ->
  (forall g, In g (activeGarments s) -> g_imageUrl g <> "") ->
  let inputs := map composition_input (activeGarments s) in
  let n := List.length (activeGarments s) in
  let keyed := match truthy_string (env_api_key P) with Some _ => true | None => false end in
  let result := run (composeTryOnImage P inputs (Some (selectedGender s))) in
  handleAIProcess P s s =
    (mkPage (garments s) (isGarmentSelectorOpen s) (selectedGarmentType s)
            (selectedGender s) false
            match fst result with
            | Returned img => Some img
            | Threw _ => None
            end,
     [ToastInfo (if keyed then MsgCreatingAI n else MsgCreatingCanvas n);
      Composition inputs (selectedGender s) (snd result);
      match fst result with
      | Returned _ => ToastSuccess (if keyed then MsgGeneratedAI n else MsgGeneratedCanvas n)
      | Threw message => ToastError (error_toast message)
      end]).
Proof.
  intros Hne Hurl inputs n keyed result. subst inputs n keyed result.
  unfold handleAIProcess. fold (activeGarments s).
  destruct (activeGarments s) as [|g0 rest] eqn:Hact; [contradiction|].
  cbn [List.length Nat.eqb].
  assert (Hinv : filter (fun g => match g_imageUrl g with
                                  | EmptyString => true
                                  | _ => false
                                  end) (g0 :: rest) = []).
  { apply filter_nothing. intros g Hg.
    specialize (Hurl g Hg). destruct (g_imageUrl g); [contradiction|reflexivity]. }
  rewrite Hinv. cbn [List.length Nat.ltb Nat.leb].
  assert (Hexp : filter is_expired (g0 :: rest) = []).
  { apply filter_nothing. intros g _.
    unfold is_expired. destruct (String.prefix _ _); reflexivity. }
  rewrite Hexp. cbn [List.length Nat.ltb Nat.leb].
  pose proof (compose_image_truthy P (map composition_input (g0 :: rest))
                (Some (selectedGender s))) as Htruthy.
  destruct (run (composeTryOnImage P (map composition_input (g0 :: rest))
                   (Some (selectedGender s)))) as [[img|message] trace].
  - cbn [fst snd] in *. rewrite (Htruthy img eq_refl). reflexivity.
  - reflexivity.
Qed.

Lemma filter_nil_inv {A} (f : A -> bool) (l : list A) :
  filter f l = [] -> forall a, In a l -> f a = false.
Proof.
  intros H a Ha. destruct (f a) eqn:Hfa; [|reflexivity].
  assert (Hin : In a (filter f l)) by (apply filter_In; auto).
  rewrite H in Hin. contradiction.
Qed.

Lemma handleAIProcess_cases (P : Platform) (s : PageState) :
  (activeGarments s = [] /\ handleAIProcess P s s = (s, [ToastError MsgNoGarments])) \/
  (activeGarments s <> [] /\
   (exists g, In g (activeGarments s) /\ g_imageUrl g = "") /\
   handleAIProcess P s s = (s, [ToastError MsgMissingData])) \/
  ready_to_compose s.
Proof.
  destruct (activeGarments s) as [|g0 rest] eqn:Hact.
  - left. split; [reflexivity|]. unfold handleAIProcess.
    fold (activeGarments s). now rewrite Hact.
  - right.
    destruct (filter (fun g => match g_imageUrl g with
                               | EmptyString => true
                               | _ => false
                               end) (g0 :: rest)) as [|bad others] eqn:Hinv.
    + right. unfold ready_to_compose. rewrite Hact. split; [discriminate|].
      intros g Hg Hurl. apply (filter_nil_inv _ _ Hinv) in Hg.
      rewrite Hurl in Hg. discriminate Hg.
    + left. split; [discriminate|]. split.
      * assert (Hbad : In bad (bad :: others)) by now left.
        rewrite <- Hinv in Hbad. apply filter_In in Hbad as [Hin Hurl].
        exists bad. split; [exact Hin|]. destruct (g_imageUrl bad); [reflexivity|discriminate].
      * unfold handleAIProcess. fold (activeGarments s). rewrite Hact.
        cbn [List.length Nat.eqb]. now rewrite Hinv.
Qed.

(** X16. Generating a try-on reaches the composition exactly when there is
    at least one active garment and every active garment has an image URL;
    the check for expired URLs never stops it.  Otherwise the page state is
    left as it is and the only effect is one error toast. *)
Theorem process_reaches_composition_iff (P : Platform) (s : PageState) :
  let effects := snd (handleAIProcess P s s) in
  ((exists inputs gender trace, In (Composition inputs gender trace) effects)
   <-> ready_to_compose s) /\
  (~ ready_to_compose s ->
   fst (handleAIProcess P s s) = s /\
   (effects = [ToastError MsgNoGarments] \/ effects = [ToastError MsgMissingData])).
Proof.
  cbv zeta. destruct (handleAIProcess_cases P s) as [[Hact H] | [(Hact & (g & Hg & Hurl) & H) | Hready]].
  - rewrite H. cbn [fst snd]. split.
    + split.
      * intros (i & g & t & [Heq | []]). discriminate Heq.
      * intros [Hne _]. contradiction.
    + intros _. split; [reflexivity | now left].
  - rewrite H. cbn [fst snd]. split.
    + split.
      * intros (i & g' & t & [Heq | []]). discriminate Heq.
      * intros [_ Hall]. now contradiction (Hall g Hg).
    + intros _. split; [reflexivity | now right].
  - split; [|intros Hn; contradiction].
    split; [intros _; exact Hready|]. intros _.
    destruct Hready as [Hne Hall].
    rewrite (handleAIProcess_run P s Hne Hall). cbn [snd].
    do 3 eexists. right. left. reflexivity.
Qed.

(** X17. When the composition is reached, it receives exactly the active
    garments (URL, type and file of each), in the order of the collection,
    and the selected gender; afterwards the processing flag is off and the
    collection is as before, whatever the outcome; the image is stored when
    the composition returned one and cleared when it threw. *)
Theorem process_composes_active_garments (P : Platform) (s : PageState)
    (Hready : ready_to_compose s) :
  let inputs := map composition_input (activeGarments s) in
  let result := run (composeTryOnImage P inputs (Some (selectedGender s))) in
  let after := fst (handleAIProcess P s s) in
  In (Composition inputs (selectedGender s) (snd result))
     (snd (handleAIProcess P s s)) /\
  (forall i g t, In (Composition i g t) (snd (handleAIProcess P s s)) ->
     i = inputs /\ g = selectedGender s /\ t = snd result) /\
  isProcessing after = false /\
  garments after = garments s /\
  aiImage after = match fst result with
                  | Returned img => Some img
                  | Threw _ => None
                  end.
Proof.
  destruct Hready as [Hne Hall]. cbv zeta.
  rewrite (handleAIProcess_run P s Hne Hall). cbn [fst snd].
  split; [right; left; reflexivity|].
  split; [|repeat split].
  intros i g t [H | [H | [H | []]]]; try discriminate H.
  - now injection H as <- <- <-.
  - destruct (fst (run _)); discriminate H.
Qed.

Lemma process_composes_active_garments_witness :
  isProcessing (fst (handleAIProcess Sample.offline Demo.wardrobe Demo.wardrobe)) = false /\
  In (Composition [mkGarment "blob:top" "tshirt" Sample.png;
                   mkGarment "blob:broken" "dress" Sample.png] female
        (snd (run (composeTryOnImage Sample.offline
                     [mkGarment "blob:top" "tshirt" Sample.png;
                      mkGarment "blob:broken" "dress" Sample.png] (Some female)))))
     (snd (handleAIProcess Sample.offline Demo.wardrobe Demo.wardrobe)).
Proof.
  assert (Hready : ready_to_compose Demo.wardrobe).
  { split; [discriminate|]. intros g [<- | [<- | []]]; discriminate. }
  destruct (process_composes_active_garments Sample.offline Demo.wardrobe Hready)
    as (Hin & _ & Hflag & _).
  split; [exact Hflag | exact Hin].
Defined.

(** X18. The only error toasts generating a try-on can show are: no active
    garment, a garment without image URL, "Failed to load garment images",
    and "Processing failed: Canvas not supported".  The toasts for expired
    URLs, for single images that could not be loaded and for an unavailable
    service are never shown. *)
Theorem process_error_toasts (P : Platform) (s : PageState) (m : Message)
    (Hshown : In (ToastError m) (snd (handleAIProcess P s s))) :
  m = MsgNoGarments \/ m = MsgMissingData \/ m = MsgLoadFailed \/
  m = MsgProcessingFailed "Canvas not supported".
Proof.
  destruct (handleAIProcess_cases P s) as [[Hact H] | [(Hact & _ & H) | [Hne Hall]]].
  - rewrite H in Hshown. destruct Hshown as [[= <-] | []]. now left.
  - rewrite H in Hshown. destruct Hshown as [[= <-] | []]. right. now left.
  - rewrite (handleAIProcess_run P s Hne Hall) in Hshown. cbn [snd] in Hshown.
    destruct Hshown as [H | [H | [H | []]]]; try discriminate H.
    destruct (fst (run _)) as [img|message] eqn:Hrun; [discriminate H|].
    injection H as <-.
    destruct (compose_errors _ _ _ _ Hrun) as [-> | ->].
    + right. right. left. reflexivity.
    + right. right. right. reflexivity.
Qed.

Lemma process_error_toasts_witness :
  MsgLoadFailed = MsgNoGarments \/ MsgLoadFailed = MsgMissingData \/
  MsgLoadFailed = MsgLoadFailed \/
  MsgLoadFailed = MsgProcessingFailed "Canvas not supported".
Proof.
  apply (process_error_toasts Sample.offline Demo.lone_dress MsgLoadFailed).
  right. right. left. reflexivity.
Defined.

(** ** Uploading and browsing garments *)

(** X19. [FileUpload] hands a file on exactly when its type starts with
    "image/" and its size is at most 10 MiB (10485760 bytes, inclusive), a
    wrong type being reported before a wrong size; and a file it hands on
    is later encoded under its own type: [fileToBase64] never falls back to
    "image/png" for it. *)
Theorem accepted_upload_keeps_its_type (P : Platform) (f : File) (size : Z) :
  (fst (handleFileSelect f size) = Some f <->
   String.prefix "image/" (file_type f) = true /\ (size <= 10485760)%Z) /\
  (fst (handleFileSelect f size) = None <-> fst (handleFileSelect f size) <> Some f) /\
  (String.prefix "image/" (file_type f) = false ->
   snd (handleFileSelect f size) = ToastError MsgNotImage) /\
  (fst (handleFileSelect f size) = Some f ->
   forall bytes, file_bytes f = Some bytes ->
     run (fileToBase64 P f) = (Returned (mkInline (file_type f) (btoa P bytes)), [])).
Proof.
  assert (Hcases :
    (String.prefix "image/" (file_type f) = false /\
     handleFileSelect f size = (None, ToastError MsgNotImage)) \/
    (String.prefix "image/" (file_type f) = true /\ (10485760 < size)%Z /\
     handleFileSelect f size = (None, ToastError MsgTooLarge)) \/
    (String.prefix "image/" (file_type f) = true /\ (size <= 10485760)%Z /\
     handleFileSelect f size = (Some f, ToastSuccess MsgUploaded))).
  { unfold handleFileSelect.
    destruct (String.prefix "image/" (file_type f)); cbn [negb]; [|now left].
    right. change (10 * 1024 * 1024)%Z with 10485760%Z.
    destruct (10485760 <? size)%Z eqn:Hsize.
    - apply Z.ltb_lt in Hsize. left. auto.
    - apply Z.ltb_ge in Hsize. right. auto. }
  destruct Hcases as [(Ht & ->) | [(Ht & Hs & ->) | (Ht & Hs & ->)]]; cbn [fst snd].
  - split; [split; [discriminate | intros [H _]; congruence]|].
    split; [split; [discriminate | reflexivity]|].
    split; [reflexivity | discriminate].
  - split; [split; [discriminate | intros [_ H]; lia]|].
    split; [split; [discriminate | reflexivity]|].
    split; [congruence | discriminate].
  - split; [split; [intros _; now split | reflexivity]|].
    split; [split; [discriminate | intros H; now contradiction H]|].
    split; [congruence|].
    intros _ bytes Hbytes. unfold run, fileToBase64. rewrite Hbytes.
    destruct (file_type f); [discriminate Ht | reflexivity].
Qed.

Lemma accepted_upload_keeps_its_type_witness :
  run (fileToBase64 Sample.offline (mkFile "image/gif" (Some [71; 73; 70]%Z)))
    = (Returned (mkInline "image/gif" "iVBORw=="), []).
Proof.
  destruct (accepted_upload_keeps_its_type Sample.offline
              (mkFile "image/gif" (Some [71; 73; 70]%Z)) 10485760)
    as (Hiff & _ & _ & Henc).
  apply (Henc (proj2 Hiff (conj eq_refl (Z.le_refl _))) [71; 73; 70]%Z eq_refl).
Defined.

(** X20. In the gallery, "all" shows the whole collection; every other
    category button shows, in the order of the collection, exactly the
    garments of that type; and since the buttons are tshirt, footwear,
    accessory and dress, a garment uploaded as pants or shorts (two of the
    types the selector offers) is shown under "all" only. *)
Theorem gallery_categories (gs : list Garment) :
  filteredGarments "all" gs = gs /\
  (forall category g,
     In category categories -> category <> "all" ->
     (In g (filteredGarments category gs) <-> In g gs /\ g_type g = category)) /\
  (forall category g,
     In category categories -> category <> "all" ->
     In g (filteredGarments category gs) ->
     g_type g <> "pants" /\ g_type g <> "shorts") /\
  In "pants" garmentTypes /\ In "shorts" garmentTypes.
Proof.
  split; [reflexivity|].
  assert (Hfilter : forall category g, category <> "all" ->
            (In g (filteredGarments category gs) <-> In g gs /\ g_type g = category)).
  { intros category g Hne. unfold filteredGarments.
    apply String.eqb_neq in Hne. rewrite Hne, filter_In.
    now rewrite String.eqb_eq. }
  split; [intros category g _ Hne; now apply Hfilter|].
  split; [|split; cbn; tauto].
  intros category g Hcat Hne Hin. apply (Hfilter category g Hne) in Hin as [_ ->].
  cbn in Hcat.
  destruct Hcat as [<- | [<- | [<- | [<- | [<- | []]]]]];
    split; discriminate.
Qed.

Lemma gallery_categories_witness :
  g_type (mkItem "c" "Dress 1" "dress" "blob:broken" Sample.png true) <> "pants" /\
  g_type (mkItem "c" "Dress 1" "dress" "blob:broken" Sample.png true) <> "shorts".
Proof.
  destruct (gallery_categories (garments Demo.wardrobe)) as (_ & _ & H & _).
  apply (H "dress").
  - right. right. right. right. left. reflexivity.
  - discriminate.
  - left. reflexivity.
Defined.
